(** * Column detection and chart planning of the report generator

    A shallow embedding of [auto_detect_columns], [get_chart_config] and the
    chart-building part of [generate_report] (main.py), together with the
    pandas operations they call, and the properties of the classifier, the
    resolver and the builder. *)

From Stdlib Require Import ZArith QArith Lia Bool List Ascii String.
From stdpp Require Import base decidable option list sorting gmap strings.

Local Open Scope string_scope.
Local Open Scope Z_scope.

(** ** Python strings *)

Module PyStr.

(** [str.lower()] on the ASCII letters; every other character is kept. *)
Definition lower_char (c : ascii) : ascii :=
  let n := N_of_ascii c in
  if ((65 <=? n) && (n <=? 90))%N then ascii_of_N (n + 32) else c.

Fixpoint lower (s : string) : string :=
  match s with
  | EmptyString => EmptyString
  | String c s' => String (lower_char c) (lower s')
  end.

(** [s.startswith(sub)] *)
Fixpoint startswith (sub s : string) : bool :=
  match sub, s with
  | EmptyString, _ => true
  | String _ _, EmptyString => false
  | String a sub', String b s' => Ascii.eqb a b && startswith sub' s'
  end.

(** The membership test [sub in s] on strings. *)
Fixpoint contains (sub s : string) : bool :=
  startswith sub s ||
  match s with
  | EmptyString => false
  | String _ s' => contains sub s'
  end.

(** Truth value of an optional string: [None] and [''] are falsy. *)
Definition truthy (o : option string) : bool :=
  match o with
  | Some (String _ _) => true
  | _ => false
  end.

End PyStr.

(** ** IEEE-754 binary64 products and comparisons

    A non-negative finite double is written as an integer numerator over
    [2^54]; [0.3] is the double [5404319552844595 / 2^54]. *)

Module Float64.

Definition three_tenths : Z := 5404319552844595.

(** Rounding of a non-negative integer to 53 significant bits, to nearest
    and ties to even. *)
Definition round53 (m : Z) : Z :=
  let shift := Z.log2 m - 52 in
  if shift <=? 0 then m
  else
    let q := Z.shiftr m shift in
    let r := m - Z.shiftl q shift in
    let half := Z.shiftl 1 (shift - 1) in
    let q' := if (half <? r) || ((r =? half) && Z.odd q) then q + 1 else q in
    Z.shiftl q' shift.

(** [n * 0.3] for a Python int [n >= 0]: [n] is converted to a double and the
    product is rounded; the result is the numerator over [2^54]. *)
Definition mul_three_tenths (n : Z) : Z :=
  round53 (round53 n * three_tenths).

(** [c > x] for an int64 count [c] and a double [x] (numerator over
    [2^54]): the count is converted to a double first. *)
Definition int_gt (c : Z) (x : Z) : bool :=
  x <? round53 c * 2 ^ 54.

End Float64.

(** ** DataFrames *)

Module Pandas.

(** A cell value that can serve as a group key. *)
Inductive value :=
| VNum (z : Z)
| VStr (s : string).

(** A column with its dtype; [None] is a missing cell (NaN, None, NaT). *)
Inductive series :=
| Numeric (cells : list (option Z))
| Object (cells : list (option string))
| Category (cells : list (option string))
| Datetime (cells : list (option Z)).

(** Columns in their native order, and the length of the index. *)
Record DataFrame := {
  df_len : nat;
  df_columns : list (string * series)
}.

Definition columns (df : DataFrame) : list string :=
  map fst (df_columns df).

(** [df[col]]: [None] stands for the KeyError. *)
Fixpoint getitem_columns (cols : list (string * series)) (col : string)
  : option series :=
  match cols with
  | [] => None
  | (name, s) :: rest =>
      if String.eqb name col then Some s else getitem_columns rest col
  end.

Definition getitem (df : DataFrame) (col : string) : option series :=
  getitem_columns (df_columns df) col.

Definition is_number (s : series) : bool :=
  match s with Numeric _ => true | _ => false end.

Definition is_object_or_category (s : series) : bool :=
  match s with Object _ | Category _ => true | _ => false end.

(** [df.select_dtypes(include=...).columns.tolist()] *)
Definition select_dtypes (incl : series -> bool) (df : DataFrame)
  : list string :=
  map fst (List.filter (fun c => incl (snd c)) (df_columns df)).

Definition count_some {A} (l : list (option A)) : Z :=
  Z.of_nat (length (List.filter (fun c => match c with Some _ => true | None => false end) l)).

(** [s.notna().sum()] *)
Definition notna_sum (s : series) : Z :=
  match s with
  | Numeric l | Datetime l => count_some l
  | Object l | Category l => count_some l
  end.

Definition size (s : series) : nat :=
  match s with
  | Numeric l | Datetime l => length l
  | Object l | Category l => length l
  end.

(** Every column has one cell per index entry. *)
Definition rectangular (df : DataFrame) : Prop :=
  Forall (fun c => size (snd c) = df_len df) (df_columns df).

(** *** Group keys *)

Definition value_eqb (a b : value) : bool :=
  match a, b with
  | VNum x, VNum y => x =? y
  | VStr x, VStr y => String.eqb x y
  | _, _ => false
  end.

(** The order in which group keys are sorted: numbers by value, strings by
    code point, numbers before strings. *)
Definition value_leb (a b : value) : bool :=
  match a, b with
  | VNum x, VNum y => x <=? y
  | VNum _, VStr _ => true
  | VStr _, VNum _ => false
  | VStr x, VStr y => String.leb x y
  end.

Definition value_le (a b : value) : Prop := value_leb a b = true.

#[global] Instance value_le_dec : RelDecision value_le.
Proof. intros a b. unfold value_le. apply _. Defined.

(** The cells of a column as group keys. *)
Definition keys_of (s : series) : list (option value) :=
  match s with
  | Numeric l | Datetime l => map (option_map VNum) l
  | Object l | Category l => map (option_map VStr) l
  end.

(** [s.dropna()] on the cells. *)
Fixpoint dropna_cells {A} (l : list (option A)) : list A :=
  match l with
  | [] => []
  | Some x :: rest => x :: dropna_cells rest
  | None :: rest => dropna_cells rest
  end.

(** [unique()]: the distinct values in order of first appearance. *)
Fixpoint unique (l : list value) : list value :=
  match l with
  | [] => []
  | x :: rest => x :: List.filter (fun y => negb (value_eqb x y)) (unique rest)
  end.

(** [s.nunique()]: the number of distinct non-null values. *)
Definition nunique (s : series) : nat :=
  length (unique (dropna_cells (keys_of s))).

(** The group keys of [groupby(col)] (defaults [sort=True], [dropna=True]):
    the distinct non-null values in ascending order. *)
Definition group_keys (s : series) : list value :=
  merge_sort value_le (unique (dropna_cells (keys_of s))).

(** The cells of another column in the rows of group [k]. *)
Fixpoint group_cells {A} (keys : list (option value)) (cells : list A)
    (k : value) : list A :=
  match keys, cells with
  | key :: keys', c :: cells' =>
      match key with
      | Some k' =>
          if value_eqb k' k then c :: group_cells keys' cells' k
          else group_cells keys' cells' k
      | None => group_cells keys' cells' k
      end
  | _, _ => []
  end.

(** *** Reductions; [None] is NaN *)

Definition sum_Z (l : list Z) : Z := fold_right Z.add 0 l.

Definition sumQ (l : list Q) : Q := fold_right Qplus (0 # 1) l.

Definition agg_sum (cells : list (option Z)) : option Q :=
  Some (inject_Z (sum_Z (dropna_cells cells))).

Definition agg_mean (cells : list (option Z)) : option Q :=
  match dropna_cells cells with
  | [] => None
  | x :: xs =>
      Some (inject_Z (sum_Z (x :: xs)) / inject_Z (Z.of_nat (length (x :: xs))))%Q
  end.

Definition agg_min (cells : list (option Z)) : option Q :=
  match dropna_cells cells with
  | [] => None
  | x :: xs => Some (inject_Z (fold_right Z.min x xs))
  end.

Definition agg_max (cells : list (option Z)) : option Q :=
  match dropna_cells cells with
  | [] => None
  | x :: xs => Some (inject_Z (fold_right Z.max x xs))
  end.

(** The reductions [agg(name)] known to the model; any other name is
    [None]. *)
Definition named_agg (name : string)
  : option (list (option Z) -> option Q) :=
  if String.eqb name "sum" then Some agg_sum
  else if String.eqb name "mean" then Some agg_mean
  else if String.eqb name "min" then Some agg_min
  else if String.eqb name "max" then Some agg_max
  else None.

(** *** Aggregated tables *)

(** A two-column table: group key and aggregate. *)
Definition table := list (value * Q).

(** [t.dropna()] *)
Fixpoint dropna (t : list (value * option Q)) : table :=
  match t with
  | [] => []
  | (k, Some v) :: rest => (k, v) :: dropna rest
  | (_, None) :: rest => dropna rest
  end.

Definition value_ge (a b : value * Q) : Prop :=
  Qle_bool (snd b) (snd a) = true.

#[global] Instance value_ge_dec : RelDecision value_ge.
Proof. intros a b. unfold value_ge. apply _. Defined.

(** [t.sort_values(val_col, ascending=False)] *)
Definition sort_values_desc (t : table) : table :=
  merge_sort value_ge t.

(** [t.head(n)] for [n >= 0]. *)
Definition head_rows {A} (n : Z) (t : list A) : list A :=
  firstn (Z.to_nat n) t.

(** [t.iloc[n:]] for [n >= 0]. *)
Definition iloc_from {A} (n : Z) (t : list A) : list A :=
  skipn (Z.to_nat n) t.

End Pandas.

Import Pandas.

(** ** The column classifier *)

Record detected_columns := {
  numeric : list string;
  categorical : list string;
  date : list string;
  best_numeric : option string;
  best_categorical : option string
}.

(** [df[col].notna().sum() > len(df) * 0.3]; a missing column is the
    KeyError, which cannot occur for a name taken from [df.columns]. *)
Definition enough_values (df : DataFrame) (col : string) : bool :=
  match getitem df col with
  | Some s =>
      Float64.int_gt (notna_sum s)
        (Float64.mul_three_tenths (Z.of_nat (df_len df)))
  | None => false
  end.

Definition auto_detect_columns (df : DataFrame) : detected_columns :=
  let numeric_cols := select_dtypes is_number df in
  let categorical_cols := select_dtypes is_object_or_category df in
  let date_cols :=
    List.filter
      (fun col => PyStr.contains "date" (PyStr.lower col)
                  || PyStr.contains "time" (PyStr.lower col))
      (columns df) in
  let valid_numeric := List.filter (enough_values df) numeric_cols in
  let valid_categorical := List.filter (enough_values df) categorical_cols in
  {| numeric := valid_numeric;
     categorical := valid_categorical;
     date := date_cols;
     best_numeric := head valid_numeric;
     best_categorical := head valid_categorical |}.


(** ** Configuration values *)

(** A value of the YAML configuration: null, a boolean, an integer, a string
    or a list of strings. *)
Inductive cfg :=
| CNone
| CBool (b : bool)
| CInt (z : Z)
| CStr (s : string)
| CList (l : list string).

#[global] Instance cfg_eq_dec : EqDecision cfg.
Proof. solve_decision. Defined.

(** The [charts] section: chart type -> key -> value. An absent section is
    [None] ([config.get('charts', {})]). *)
Record Config := {
  cfg_charts : option (gmap string (gmap string cfg))
}.

Module Py.

(** Truth value of a configuration value. *)
Definition truthy (v : cfg) : bool :=
  match v with
  | CNone => false
  | CBool b => b
  | CInt z => negb (z =? 0)
  | CStr s => negb (String.eqb s "")
  | CList l => match l with [] => false | _ :: _ => true end
  end.

(** [a or b] *)
Definition or (a b : cfg) : cfg := if truthy a then a else b.

(** An optional column name as a Python value. *)
Definition of_option (o : option string) : cfg :=
  match o with
  | Some s => CStr s
  | None => CNone
  end.

(** [d.get(key)] *)
Definition get (d : gmap string cfg) (key : string) : cfg :=
  default CNone (d !! key).

(** [d.get(key, dflt)] *)
Definition get_default (d : gmap string cfg) (key : string) (dflt : cfg) : cfg :=
  default dflt (d !! key).

End Py.

(** ** The chart plan resolver *)

(** [value == "auto" or value is None] *)
Definition is_auto (value : cfg) : bool :=
  match value with
  | CStr s => String.eqb s "auto"
  | CNone => true
  | _ => false
  end.

(** The branch taken for an ["auto"] or null value. *)
Definition auto_assign (detected : detected_columns) (key : string) (value : cfg)
  : cfg :=
  if PyStr.contains "category" key then
    Py.of_option (best_categorical detected)
  else if PyStr.contains "value" key || PyStr.contains "y_col" key then
    Py.of_option (best_numeric detected)
  else if PyStr.contains "x_col" key then
    Py.or (Py.of_option (best_categorical detected))
          (match date detected with
           | d :: _ => CStr d
           | [] => CNone
           end)
  else if String.eqb key "y_columns" then
    CList (firstn 3 (numeric detected))
  else if String.eqb key "title" then
    CNone
  else
    value.

Definition resolve (detected : detected_columns) (key : string) (value : cfg)
  : cfg :=
  if is_auto value then auto_assign detected key value else value.

Definition chart_conf (config : Config) (chart_type : string) : gmap string cfg :=
  default ∅ (default ∅ (cfg_charts config) !! chart_type).

(** The loop [for key, value in chart_conf.items(): result[key] = ...]
    starting from the empty dict. *)
Definition get_chart_config (config : Config) (chart_type : string)
    (detected : detected_columns) : gmap string cfg :=
  map_fold
    (fun key value result => <[key := resolve detected key value]> result)
    ∅ (chart_conf config chart_type).

(** ** The chart builder *)

(** A call of the renderer with the aggregated table and the resolved
    fields. Titles, descriptions and file names are not modelled. *)
Inductive chart :=
| BarChart (data : table) (x_col y_col : string)
| PieChart (data : table) (values labels : string)
| LineChart (data : list (value * list Q)) (x_col : string) (y_cols : list string).

(** What one chart block of [generate_report] does: it calls the renderer,
    it does nothing, or an exception leaves the run. *)
Inductive outcome :=
| Built (c : chart)
| Skipped
| Raised.

(** [charts_config.get(chart_type, {}).get('enabled', True)] *)
Definition enabled (config : Config) (chart_type : string) : cfg :=
  Py.get_default (chart_conf config chart_type) "enabled" (CBool true).

(** The grouping and aggregation shared by the bar and the pie chart:
    [groupby(cat_col).size()] for ['count'], otherwise
    [groupby(cat_col)[val_col].agg(agg)], each followed by [reset_index].
    [None] is an exception: a missing column, a name clash in
    [reset_index], an unknown reduction. Reductions of a column that is not
    numeric are outside the model and give [None] as well. *)
Definition aggregate (df : DataFrame) (cat_col val_col : string) (agg : cfg)
  : option (list (value * option Q)) :=
  if String.eqb cat_col val_col then None
  else
    match getitem df cat_col with
    | None => None
    | Some cat =>
        let keys := keys_of cat in
        if decide (agg = CStr "count") then
          Some (map (fun k =>
                       (k, Some (inject_Z (Z.of_nat (length (group_cells keys keys k))))))
                    (group_keys cat))
        else
          match agg with
          | CStr name =>
              match named_agg name, getitem df val_col with
              | Some f, Some (Numeric cells) =>
                  Some (map (fun k => (k, f (group_cells keys cells k)))
                            (group_keys cat))
              | _, _ => None
              end
          | _ => None
          end
    end.

(** [agg_data.dropna().sort_values(val_col, ascending=False)] and, for a
    positive [top_n], [head(top_n)]. *)
Definition bar_rows (grouped : list (value * option Q)) (top_n : Z) : table :=
  let agg_data := sort_values_desc (dropna grouped) in
  if 0 <? top_n then head_rows top_n agg_data else agg_data.

(** The bar chart block. A column name that is not a string and a [top_n]
    that is not an integer end in an exception. *)
Definition bar_chart (config : Config) (df : DataFrame)
    (detected : detected_columns) : outcome :=
  let bar_conf := get_chart_config config "bar_chart" detected in
  if Py.truthy (enabled config "bar_chart")
     && Py.truthy (Py.get bar_conf "category_column")
     && Py.truthy (Py.get bar_conf "value_column")
  then
    match Py.get bar_conf "category_column",
          Py.get bar_conf "value_column",
          Py.get_default bar_conf "top_n" (CInt 15) with
    | CStr cat_col, CStr val_col, CInt top_n =>
        let agg := Py.get_default bar_conf "aggregation" (CStr "sum") in
        match aggregate df cat_col val_col agg with
        | Some grouped => Built (BarChart (bar_rows grouped top_n) cat_col val_col)
        | None => Raised
        end
    | _, _, _ => Raised
    end
  else Skipped.

(** [3 <= df[col].nunique() <= 8] *)
Definition few_unique (df : DataFrame) (col : string) : option bool :=
  match getitem df col with
  | Some s => Some ((3 <=? nunique s)%nat && (nunique s <=? 8)%nat)
  | None => None
  end.

(** The loop over [detected['categorical']] with its [break]; [cat_col] is
    kept when no column qualifies. *)
Fixpoint prefer_few_unique (df : DataFrame) (cols : list string)
    (cat_col : string) : option string :=
  match cols with
  | [] => Some cat_col
  | col :: rest =>
      match few_unique df col with
      | Some true => Some col
      | Some false => prefer_few_unique df rest cat_col
      | None => None
      end
  end.

(** The category column of the pie chart. *)
Definition pie_category (df : DataFrame) (detected : detected_columns)
    (cat_col : string) : option string :=
  if decide (Some cat_col = best_categorical detected) then
    prefer_few_unique df (categorical detected) cat_col
  else Some cat_col.

(** Sorting and the grouping of the small slices into ["Other"]. *)
Definition pie_rows (grouped : list (value * option Q)) (top_n : Z) : table :=
  let pie_data := sort_values_desc (dropna grouped) in
  if (0 <? top_n) && (top_n <? Z.of_nat (length pie_data)) then
    let top_data := head_rows (top_n - 1) pie_data in
    let other_sum := sumQ (map snd (iloc_from (top_n - 1) pie_data)) in
    (top_data ++ [(VStr "Other", other_sum)])%list
  else pie_data.

Definition pie_chart (config : Config) (df : DataFrame)
    (detected : detected_columns) : outcome :=
  let pie_conf := get_chart_config config "pie_chart" detected in
  if Py.truthy (enabled config "pie_chart")
     && Py.truthy (Py.get pie_conf "category_column")
     && Py.truthy (Py.get pie_conf "value_column")
  then
    match Py.get pie_conf "category_column",
          Py.get pie_conf "value_column",
          Py.get_default pie_conf "top_n" (CInt 10) with
    | CStr cat_col0, CStr val_col, CInt top_n =>
        let agg := Py.get_default pie_conf "aggregation" (CStr "sum") in
        match pie_category df detected cat_col0 with
        | Some cat_col =>
            match aggregate df cat_col val_col agg with
            | Some grouped =>
                Built (PieChart (pie_rows grouped top_n) val_col cat_col)
            | None => Raised
            end
        | None => Raised
        end
    | _, _, _ => Raised
    end
  else Skipped.

(** [y_cols if isinstance(y_cols, list) else [y_cols]]; a value that is
    neither a list nor a string names no column of the model. *)
Definition y_list (y_cols : cfg) : option (list string) :=
  match y_cols with
  | CList l => Some l
  | CStr s => Some [s]
  | _ => None
  end.

(** The numeric cells of each y column; [None] when one is missing, is the
    x column itself or is not numeric. *)
Fixpoint y_cells (df : DataFrame) (x_col : string) (ys : list string)
  : option (list (list (option Z))) :=
  match ys with
  | [] => Some []
  | y :: rest =>
      if String.eqb y x_col then None
      else
        match getitem df y, y_cells df x_col rest with
        | Some (Numeric cells), Some more => Some (cells :: more)
        | _, _ => None
        end
  end.

(** [df.groupby(x_col)[y_cols].sum().reset_index()] *)
Definition grouped_sums (df : DataFrame) (x_col : string) (ys : list string)
  : option (list (value * list (option Q))) :=
  match getitem df x_col, y_cells df x_col ys with
  | Some x, Some cols =>
      Some (map (fun k =>
                   (k, map (fun cells => agg_sum (group_cells (keys_of x) cells k))
                           cols))
                (group_keys x))
  | _, _ => None
  end.

(** [dropna] on a table with several value columns: a row with a NaN
    anywhere is dropped. *)
Fixpoint all_some {A} (l : list (option A)) : option (list A) :=
  match l with
  | [] => Some []
  | Some x :: rest => option_map (cons x) (all_some rest)
  | None :: _ => None
  end.

Fixpoint dropna_rows (t : list (value * list (option Q)))
  : list (value * list Q) :=
  match t with
  | [] => []
  | (k, vs) :: rest =>
      match all_some vs with
      | Some qs => (k, qs) :: dropna_rows rest
      | None => dropna_rows rest
      end
  end.

(** [line_data.dropna().head(20)] *)
Definition line_rows (grouped : list (value * list (option Q)))
  : list (value * list Q) :=
  head_rows 20 (dropna_rows grouped).

(** The x column and the y columns of the line chart. *)
Definition line_x (line_conf : gmap string cfg) (detected : detected_columns)
  : cfg :=
  Py.or (Py.get line_conf "x_column") (Py.of_option (best_categorical detected)).

Definition line_y (line_conf : gmap string cfg) (detected : detected_columns)
  : cfg :=
  Py.or (Py.get line_conf "y_columns") (CList (firstn 3 (numeric detected))).

(** The table the line chart block computes, when it gets that far. *)
Definition line_data (df : DataFrame) (x_col y_cols : cfg)
  : option (list (value * list Q)) :=
  match x_col, y_list y_cols with
  | CStr x, Some ys => option_map line_rows (grouped_sums df x ys)
  | _, _ => None
  end.

Definition line_chart (config : Config) (df : DataFrame)
    (detected : detected_columns) : outcome :=
  let line_conf := get_chart_config config "line_chart" detected in
  if Py.truthy (enabled config "line_chart")
     && (2 <=? length (numeric detected))%nat
  then
    let x_col := line_x line_conf detected in
    let y_cols := line_y line_conf detected in
    if Py.truthy x_col && Py.truthy y_cols then
      match x_col, y_list y_cols, line_data df x_col y_cols with
      | CStr x, Some ys, Some rows =>
          if (1 <? length rows)%nat then Built (LineChart rows x ys)
          else Skipped
      | _, _, _ => Raised
      end
    else Skipped
  else Skipped.

(** Step 2 of [generate_report]: the renderer calls in order, or [None] when
    an exception ends the run. *)
Definition built (o : outcome) : option (list chart) :=
  match o with
  | Built c => Some [c]
  | Skipped => Some []
  | Raised => None
  end.

Definition create_visualizations (config : Config) (df : DataFrame)
  : option (list chart) :=
  let detected := auto_detect_columns df in
  match built (bar_chart config df detected) with
  | None => None
  | Some bar =>
      match built (pie_chart config df detected) with
      | None => None
      | Some pie =>
          match built (line_chart config df detected) with
          | None => None
          | Some line => Some (bar ++ pie ++ line)%list
          end
      end
  end.

(** ** Predicates of the statements *)

(** [key] has an occurrence of [word]. *)
Definition mentions (word key : string) : Prop :=
  exists pre post, key = String.append pre (String.append word post).


(** The distinct-value count of a column lies in [3, 8]. *)
Definition few_distinct (df : DataFrame) (col : string) : Prop :=
  exists s, getitem df col = Some s /\ (3 <= nunique s <= 8)%nat.

Definition not_few_distinct (df : DataFrame) (col : string) : Prop :=
  exists s, getitem df col = Some s /\ ~ (3 <= nunique s <= 8)%nat.

(** The groups of a column in the order of their first row. *)
Definition groups_in_row_order (s : series) : list value :=
  unique (dropna_cells (keys_of s)).

(** ** Sample configurations and datasets *)

Module Samples.

(** [get_default_config()['charts']] *)
Definition default_config : Config :=
  {| cfg_charts := Some (list_to_map [
       ("bar_chart", list_to_map [
          ("enabled", CBool true);
          ("category_column", CStr "auto");
          ("value_column", CStr "auto");
          ("aggregation", CStr "sum");
          ("top_n", CInt 15)]);
       ("pie_chart", list_to_map [
          ("enabled", CBool true);
          ("category_column", CStr "auto");
          ("value_column", CStr "auto");
          ("aggregation", CStr "sum");
          ("top_n", CInt 10)]);
       ("line_chart", list_to_map [
          ("enabled", CBool true);
          ("x_column", CStr "auto");
          ("y_columns", CStr "auto")])]) |}.

(** Twenty regions, five statuses. *)
Definition regions_df : DataFrame :=
  {| df_len := 20;
     df_columns := [
       ("region", Object [Some "r01"; Some "r02"; Some "r03"; Some "r04"; Some "r05"; Some "r06"; Some "r07"; Some "r08"; Some "r09"; Some "r10"; Some "r11"; Some "r12"; Some "r13"; Some "r14"; Some "r15"; Some "r16"; Some "r17"; Some "r18"; Some "r19"; Some "r20"]);
       ("status", Object [Some "s1"; Some "s2"; Some "s3"; Some "s4"; Some "s5"; Some "s1"; Some "s2"; Some "s3"; Some "s4"; Some "s5"; Some "s1"; Some "s2"; Some "s3"; Some "s4"; Some "s5"; Some "s1"; Some "s2"; Some "s3"; Some "s4"; Some "s5"]);
       ("revenue", Numeric [Some 1; Some 8; Some 2; Some 9; Some 3; Some 10; Some 4; Some 11; Some 5; Some 12; Some 6; Some 13; Some 7; Some 1; Some 8; Some 2; Some 9; Some 3; Some 10; Some 4])] |}.

(** Twenty-one x values, the first row holding the greatest. *)
Definition trend_df : DataFrame :=
  {| df_len := 21;
     df_columns := [
       ("step", Object [Some "z"; Some "a01"; Some "a02"; Some "a03"; Some "a04"; Some "a05"; Some "a06"; Some "a07"; Some "a08"; Some "a09"; Some "a10"; Some "a11"; Some "a12"; Some "a13"; Some "a14"; Some "a15"; Some "a16"; Some "a17"; Some "a18"; Some "a19"; Some "a20"]);
       ("revenue", Numeric [Some 1; Some 2; Some 3; Some 4; Some 5; Some 6; Some 7; Some 8; Some 9; Some 10; Some 11; Some 12; Some 13; Some 14; Some 15; Some 16; Some 17; Some 18; Some 19; Some 20; Some 21]);
       ("cost", Numeric [Some 2; Some 4; Some 6; Some 8; Some 10; Some 12; Some 14; Some 16; Some 18; Some 20; Some 22; Some 24; Some 26; Some 28; Some 30; Some 32; Some 34; Some 36; Some 38; Some 40; Some 42])] |}.

(** A bar chart fragment that does not mention [category_column]. *)
Definition sparse_config : Config :=
  {| cfg_charts := Some (list_to_map [
       ("bar_chart", list_to_map [
          ("enabled", CBool true);
          ("value_column", CStr "auto")])]) |}.

(** A bar chart fragment whose [category_column] is null. *)
Definition null_config : Config :=
  {| cfg_charts := Some (list_to_map [
       ("bar_chart", list_to_map [
          ("enabled", CBool true);
          ("category_column", CNone);
          ("value_column", CStr "revenue")])]) |}.

(** Ten rows: four revenues, three industries and no timestamp present;
    the last column is numeric and its name mentions a date. *)
Definition sparse_df : DataFrame :=
  {| df_len := 10;
     df_columns := [
       ("revenue", Numeric [Some 5; None; Some 7; None; None; Some 1; None; None; Some 2; None]);
       ("industry", Object [Some "a"; None; None; Some "b"; None; None; None; Some "a"; None; None]);
       ("Created_Time", Datetime [None; None; None; None; None; None; None; None; None; None]);
       ("update_date", Numeric [Some 1; Some 2; Some 3; Some 4; Some 5; Some 6; Some 7; Some 8; Some 9; Some 10]);
       ("DateLabel", Object [Some "x"; Some "y"; Some "x"; Some "y"; Some "x"; None; None; None; None; None])] |}.


(** Three rows of one kind, with two numeric columns. *)
Definition flat_df : DataFrame :=
  {| df_len := 3;
     df_columns := [
       ("kind", Object [Some "a"; Some "a"; Some "a"]);
       ("revenue", Numeric [Some 1; Some 2; Some 3]);
       ("cost", Numeric [Some 4; None; Some 6])] |}.

End Samples.

(** ** Further predicates *)

(** A key of a fragment that is left to the resolver: absent, ["auto"] or
    null. *)
Definition unset (o : option cfg) : Prop :=
  o = None \/ o = Some (CStr "auto") \/ o = Some CNone.

(** ** Further sample configurations *)

Module MoreSamples.

(** A configuration without a [charts] section. *)
Definition no_charts_config : Config := {| cfg_charts := None |}.

(** A bar chart by a column that the sample datasets do not have. *)
Definition missing_column_config : Config :=
  {| cfg_charts := Some (list_to_map [
       ("bar_chart", list_to_map [
          ("category_column", CStr "country");
          ("value_column", CStr "revenue")])]) |}.

(** Two numeric columns and nothing else. *)
Definition numbers_df : DataFrame :=
  {| df_len := 3;
     df_columns := [
       ("revenue", Numeric [Some 1; Some 2; Some 3]);
       ("cost", Numeric [Some 4; Some 5; Some 6])] |}.

(** Readings by time: numeric columns only, the first named after a time. *)
Definition readings_df : DataFrame :=
  {| df_len := 3;
     df_columns := [
       ("event_time", Numeric [Some 10; Some 20; Some 30]);
       ("temperature", Numeric [Some 4; Some 5; Some 6])] |}.

End MoreSamples.

(** ** Rows with a category *)


(** The sum of a weight over cells. *)
Definition total {A} (weight : A -> Z) (cells : list A) : Z :=
  sum_Z (map weight cells).

(** ** The data loader (data_loader.py) *)

Module DataLoader.

(** [s.endswith(suffix)]: one of the tails of [s] is [suffix]. *)
Fixpoint endswith (suffix s : string) : bool :=
  String.eqb s suffix ||
  match s with
  | EmptyString => false
  | String _ s' => endswith suffix s'
  end.

(** The read that [load_data] ends in; the readers themselves are pandas,
    the json module, requests and gspread. *)
Inductive read :=
| ReadCsv (file_path : string)
| ReadExcel (file_path : string) (sheet_name : cfg)
| ReadJson (file_path : string)
| ReadSqlQuery (connection_string : string) (query : cfg)
| ReadSqlTable (connection_string : string) (table : cfg)
| RequestApi (url : string) (method headers params json_path : cfg)
| OpenSheet (sheet_id : string) (sheet_name credentials_file : cfg).

(** The branches of [load_sql] after the engine is created; [None] is the
    ValueError. *)
Definition load_sql (connection_string : string) (query table : cfg)
  : option read :=
  if Py.truthy query then Some (ReadSqlQuery connection_string query)
  else if Py.truthy table then Some (ReadSqlTable connection_string table)
  else None.

(** The auto-detection of [load_data]; [None] is the ValueError. *)
Definition detect_source_type (source : string) : option string :=
  let source_lower := PyStr.lower source in
  if endswith ".csv" source_lower then Some "csv"
  else if endswith ".xlsx" source_lower || endswith ".xls" source_lower then
    Some "excel"
  else if endswith ".json" source_lower then Some "json"
  else if PyStr.startswith "sqlite:" source_lower
          || PyStr.startswith "mysql:" source_lower
          || PyStr.startswith "postgresql:" source_lower
          || PyStr.startswith "postgres:" source_lower then Some "sql"
  else if PyStr.startswith "http://" source_lower
          || PyStr.startswith "https://" source_lower then Some "api"
  else None.

(** The routing of [load_data] for a source type that is already known. *)
Definition route (source : string) (source_type : cfg) (kwargs : gmap string cfg)
  : option read :=
  if decide (source_type = CStr "csv") then Some (ReadCsv source)
  else if decide (source_type = CStr "excel") then
    Some (ReadExcel source (Py.get kwargs "sheet_name"))
  else if decide (source_type = CStr "json") then Some (ReadJson source)
  else if decide (source_type = CStr "sql") then
    load_sql source (Py.get kwargs "query") (Py.get kwargs "table")
  else if decide (source_type = CStr "api") then
    Some (RequestApi source
            (Py.get_default kwargs "method" (CStr "GET"))
            (Py.get kwargs "headers")
            (Py.get kwargs "params")
            (Py.get kwargs "json_path"))
  else if decide (source_type = CStr "google_sheets") then
    Some (OpenSheet source
            (Py.get kwargs "sheet_name")
            (Py.get_default kwargs "credentials_file" (CStr "credentials.json")))
  else None.

Definition load_data (source : string) (source_type : cfg)
    (kwargs : gmap string cfg) : option read :=
  if decide (source_type = CStr "auto") then
    match detect_source_type source with
    | Some detected_type => route source (CStr detected_type) kwargs
    | None => None
    end
  else route source source_type kwargs.

(** Step 1 of [generate_report] up to the call of [load_data]: [data] is the
    [data] section of the configuration. A [default_file] that is missing or
    is not a string ends in an exception. *)
Definition extra_params (data : gmap string cfg) : gmap string cfg :=
  let with_table :=
    if Py.truthy (Py.get data "table")
    then <["table" := Py.get data "table"]> (∅ : gmap string cfg)
    else ∅ in
  if Py.truthy (Py.get data "query")
  then <["query" := Py.get data "query"]> with_table
  else with_table.

Definition report_source (data : gmap string cfg) (data_file : option string)
  : option read :=
  let source :=
    match data_file with
    | Some file => Some file
    | None =>
        match data !! "default_file" with
        | Some (CStr file) => Some file
        | _ => None
        end
    end in
  match source with
  | Some file =>
      load_data file (Py.get_default data "source_type" (CStr "auto"))
        (extra_params data)
  | None => None
  end.

(** *** JSON documents *)

#[local] Set Warnings "-register-all".

Inductive json :=
| JNull
| JBool (b : bool)
| JNum (z : Z)
| JStr (s : string)
| JList (items : list json)
| JDict (entries : list (string * json)).

(** [d[key]] on the entries of a dict; [None] is the KeyError. *)
Fixpoint dict_get (entries : list (string * json)) (key : string) : option json :=
  match entries with
  | [] => None
  | (k, v) :: rest => if String.eqb k key then Some v else dict_get rest key
  end.

(** What the frame is made from: [pd.DataFrame(records)] or
    [pd.json_normalize(d)]. *)
Inductive frame_input :=
| Records (records : list json)
| Normalize (entries : list (string * json)).

(** The loop over ['data', 'results', 'records', 'items']. *)
Fixpoint first_list (entries : list (string * json)) (keys : list string)
  : option (list json) :=
  match keys with
  | [] => None
  | key :: rest =>
      match dict_get entries key with
      | Some (JList items) => Some items
      | _ => first_list entries rest
      end
  end.

(** The structure handling shared by [load_json] and [load_api]; [None] is
    the ValueError. *)
Definition frame_of (data : json) : option frame_input :=
  match data with
  | JList items => Some (Records items)
  | JDict entries =>
      match first_list entries ["data"; "results"; "records"; "items"] with
      | Some items => Some (Records items)
      | None => Some (Normalize entries)
      end
  | _ => None
  end.

Definition load_json (content : json) : option frame_input := frame_of content.

(** [s.split('.')] *)
Fixpoint split_dot (s : string) : list string :=
  match s with
  | EmptyString => [EmptyString]
  | String c s' =>
      if Ascii.eqb c "."%char then EmptyString :: split_dot s'
      else
        match split_dot s' with
        | part :: parts => String c part :: parts
        | [] => [String c EmptyString]
        end
  end.

(** [data = data[key]] for each key; a key that is missing, or a value that
    is not a dict, ends in an exception. *)
Fixpoint navigate (data : json) (keys : list string) : option json :=
  match keys with
  | [] => Some data
  | key :: rest =>
      match data with
      | JDict entries =>
          match dict_get entries key with
          | Some inner => navigate inner rest
          | None => None
          end
      | _ => None
      end
  end.

(** [load_api] from the decoded response body on. A [json_path] that is
    truthy but not a string has no [split]. *)
Definition load_api (body : json) (json_path : cfg) : option frame_input :=
  if Py.truthy json_path then
    match json_path with
    | CStr path =>
        match navigate body (split_dot path) with
        | Some data => frame_of data
        | None => None
        end
    | _ => None
    end
  else frame_of body.

End DataLoader.

(** ** Summary statistics (data_loader.py) *)

Module Summary.

(** The statistics of one numeric column; [None] is NaN. *)
Record column_stats := {
  total : option Q;
  average : option Q;
  max : option Q;
  min : option Q
}.

Record summary := {
  total_rows : nat;
  summary_columns : list string;
  numeric_summary : list (string * column_stats)
}.

(** [d[key] = value] on a dict in insertion order. *)
Fixpoint dict_set {V} (d : list (string * V)) (key : string) (value : V)
  : list (string * V) :=
  match d with
  | [] => [(key, value)]
  | (k, v) :: rest =>
      if String.eqb k key then (k, value) :: rest
      else (k, v) :: dict_set rest key value
  end.

(** [df[col].sum()], [.mean()], [.max()], [.min()] *)
Definition stats (cells : list (option Z)) : column_stats :=
  {| total := agg_sum cells;
     average := agg_mean cells;
     max := agg_max cells;
     min := agg_min cells |}.

(** One step of the loop over the numeric columns. A name for which
    [df[col]] is not one numeric column (a repeated column name) is outside
    the model: [None]. *)
Definition add_column (df : DataFrame)
    (acc : option (list (string * column_stats))) (col : string)
  : option (list (string * column_stats)) :=
  match acc, getitem df col with
  | Some d, Some (Numeric cells) => Some (dict_set d col (stats cells))
  | _, _ => None
  end.

Definition get_summary_stats (df : DataFrame) : option summary :=
  let numeric_cols := select_dtypes is_number df in
  match fold_left (add_column df) numeric_cols (Some []) with
  | Some d =>
      Some {| total_rows := df_len df;
              summary_columns := columns df;
              numeric_summary := d |}
  | None => None
  end.

End Summary.

(** ** Sending the report (email_sender.py) *)

Module EmailSender.




End EmailSender.

(** [source], in lower case, ends with [suffix]. *)
Definition has_extension (suffix source : string) : Prop :=
  exists pre, PyStr.lower source = String.append pre suffix.

(** * Properties *)

(** ** Rounding facts *)

Module Float64Facts.
Import Float64.

Lemma round53_small m : 0 <= m < 2 ^ 53 -> round53 m = m.
Proof.
  intros [Hlo Hhi]. unfold round53.
  assert (Hlog : Z.log2 m <= 52).
  { destruct (Z.eq_dec m 0) as [-> | Hne]; [simpl; lia |].
    assert (Z.log2 m < 53) by (apply Z.log2_lt_pow2; lia). lia. }
  destruct (Z.leb_spec (Z.log2 m - 52) 0); [reflexivity | lia].
Qed.

(** Above [2^53] the result is a multiple of the unit in the last place
    [P], within half a unit of the argument. *)
Lemma round53_large m :
  2 ^ 53 <= m ->
  exists P k,
    P = 2 ^ (Z.log2 m - 52) /\ 2 <= P /\
    P * 2 ^ 52 <= m < P * 2 ^ 53 /\
    round53 m = k * P /\
    - P <= 2 * (round53 m - m) <= P.
Proof.
  intros Hm.
  assert (Hpos : 0 < m) by (change (2 ^ 53) with 9007199254740992 in Hm; lia).
  assert (Hlog : 53 <= Z.log2 m) by (apply Z.log2_le_pow2; lia).
  set (s := Z.log2 m - 52).
  assert (Hs : 1 <= s) by (unfold s; lia).
  destruct (Z.log2_spec m Hpos) as [Hl Hu].
  replace (Z.succ (Z.log2 m)) with (s + 53) in Hu by (unfold s; lia).
  replace (Z.log2 m) with (s + 52) in Hl by (unfold s; lia).
  rewrite Z.pow_add_r in Hl, Hu by lia.
  assert (Hhalf : 2 ^ s = 2 * 2 ^ (s - 1)).
  { replace s with (1 + (s - 1)) at 1 by lia.
    rewrite Z.pow_add_r by lia. reflexivity. }
  assert (Hhpos : 0 < 2 ^ (s - 1)) by (apply Z.pow_pos_nonneg; lia).
  unfold round53. fold s.
  destruct (Z.leb_spec s 0); [lia |].
  rewrite Z.shiftr_div_pow2, !Z.shiftl_mul_pow2, Z.mul_1_l by lia.
  set (P := 2 ^ s) in *. set (h := 2 ^ (s - 1)) in *.
  assert (Hdiv : m = P * (m / P) + m mod P) by (apply Z.div_mod; lia).
  assert (Hmod : 0 <= m mod P < P) by (apply Z.mod_pos_bound; lia).
  set (q := m / P) in *. set (r := m mod P) in *.
  exists P.
  destruct ((h <? m - q * P) || ((m - q * P =? h) && Z.odd q)) eqn:Hup.
  - exists (q + 1).
    assert (h <= m - q * P).
    { apply orb_true_iff in Hup as [Hup | Hup].
      - apply Z.ltb_lt in Hup. lia.
      - apply andb_true_iff in Hup as [Hup _]. apply Z.eqb_eq in Hup. lia. }
    repeat split; lia.
  - exists q. apply orb_false_iff in Hup as [Hup _].
    apply Z.ltb_ge in Hup. repeat split; lia.
Qed.

(** For row counts up to [2^51] the double comparison against
    [n * 0.3] decides [3 n < 10 c] exactly. *)
Lemma int_gt_three_tenths n c :
  0 <= n <= 2 ^ 51 -> 0 <= c <= n ->
  int_gt c (mul_three_tenths n) = true <-> 3 * n < 10 * c.
Proof.
  intros Hn Hc. unfold int_gt, mul_three_tenths.
  change (2 ^ 51) with 2251799813685248 in Hn.
  rewrite (round53_small n), (round53_small c)
    by (change (2 ^ 53) with 9007199254740992; lia).
  rewrite Z.ltb_lt. unfold three_tenths.
  change (2 ^ 54) with 18014398509481984.
  set (m := n * 5404319552844595).
  destruct (Z_lt_le_dec m (2 ^ 53)) as [Hsm | Hlg].
  - rewrite round53_small by (unfold m; lia).
    change (2 ^ 53) with 9007199254740992 in Hsm. unfold m in *. lia.
  - destruct (round53_large m Hlg) as (P & k & HP & HP2 & Hb & Hk & Herr).
    change (2 ^ 52) with 4503599627370496 in Hb.
    change (2 ^ 53) with 9007199254740992 in Hb.
    assert (H10 : 10 * m = 3 * n * 18014398509481984 - 2 * n)
      by (unfold m; lia).
    assert (Hs54 : exists d, 18014398509481984 = d * P).
    { assert (Hl : Z.log2 m - 52 <= 54).
      { assert (Z.log2 m < 107); [| lia].
        apply Z.log2_lt_pow2; [lia |].
        change (2 ^ 107) with 162259276829213363391578010288128.
        unfold m. lia. }
      assert (53 <= Z.log2 m)
        by (apply Z.log2_le_pow2; [lia | assumption]).
      exists (2 ^ (54 - (Z.log2 m - 52))).
      rewrite HP, <- Z.pow_add_r by lia.
      replace (54 - (Z.log2 m - 52) + (Z.log2 m - 52)) with 54 by lia.
      reflexivity. }
    destruct Hs54 as [d Hd].
    split; intros H.
    + destruct (Z_lt_le_dec (3 * n) (10 * c)) as [| Hle]; [assumption |].
      exfalso.
      destruct (Z.eq_dec (10 * c) (3 * n)) as [Heq | Hne].
      * assert (Hk' : (c * d - k) * P = c * 18014398509481984 - round53 m)
          by (rewrite Hk, Hd; ring).
        assert (0 < (c * d - k) * P < P) by lia.
        assert (0 < c * d - k < 1) by nia. lia.
      * lia.
    + lia.
Qed.

End Float64Facts.

(** ** Facts on strings and column lookup *)

Module PyStrFacts.
Import PyStr.

Lemma startswith_iff sub s :
  startswith sub s = true <-> exists post, s = String.append sub post.
Proof.
  revert s. induction sub as [| a sub IH]; intros s; simpl.
  - split; [intros _; exists s; reflexivity | reflexivity].
  - destruct s as [| b s].
    + split; [discriminate | intros [post Hpost]; discriminate].
    + rewrite andb_true_iff, Ascii.eqb_eq, IH. split.
      * intros [-> [post ->]]. exists post. reflexivity.
      * intros [post Hpost]. injection Hpost as -> ->. eauto.
Qed.

(** [sub in s] holds exactly when [s] splits around an occurrence of
    [sub]. *)
Lemma contains_iff sub s :
  contains sub s = true <->
  exists pre post, s = String.append pre (String.append sub post).
Proof.
  induction s as [| b s IH].
  - simpl. rewrite orb_false_r, startswith_iff. split.
    + intros [post Hpost]. exists EmptyString, post. exact Hpost.
    + intros (pre & post & Hs). destruct pre; [eauto | discriminate].
  - cbn [contains]. rewrite orb_true_iff, IH, startswith_iff. split.
    + intros [[post Hpost] | (pre & post & Hs)].
      * exists EmptyString, post. exact Hpost.
      * exists (String b pre), post. simpl. now rewrite Hs.
    + intros (pre & post & Hs). destruct pre as [| a pre].
      * left. exists post. exact Hs.
      * right. injection Hs as _ Hs. eauto.
Qed.

End PyStrFacts.

Module PandasFacts.

Lemma count_some_le {A} (l : list (option A)) :
  0 <= count_some l <= Z.of_nat (length l).
Proof.
  unfold count_some. pose proof (List.filter_length_le
    (fun c : option A => match c with Some _ => true | None => false end) l).
  lia.
Qed.

Lemma notna_sum_le s : 0 <= notna_sum s <= Z.of_nat (size s).
Proof. destruct s; simpl; apply count_some_le. Qed.

Lemma getitem_columns_In cols col s :
  getitem_columns cols col = Some s -> In (col, s) cols.
Proof.
  induction cols as [| [name s'] cols IH]; simpl; [discriminate |].
  destruct (String.eqb_spec name col) as [-> | Hne].
  - intros [= ->]. now left.
  - intros H. right. now apply IH.
Qed.

(** With unique column names, [df[col]] is the column of that name. *)
Lemma In_getitem_columns cols col s :
  List.NoDup (map fst cols) -> In (col, s) cols ->
  getitem_columns cols col = Some s.
Proof.
  induction cols as [| [name s'] cols IH]; simpl; [contradiction |].
  intros Hnd [Heq | Hin].
  - injection Heq as -> ->. now rewrite String.eqb_refl.
  - apply NoDup_cons_iff in Hnd as [Hnotin Hnd].
    destruct (String.eqb_spec name col) as [-> | Hne].
    + exfalso. apply Hnotin. apply in_map_iff. now exists (col, s).
    + now apply IH.
Qed.

Lemma In_select_dtypes incl df col :
  In col (select_dtypes incl df) <->
  exists s, In (col, s) (df_columns df) /\ incl s = true.
Proof.
  unfold select_dtypes. rewrite in_map_iff. split.
  - intros ([name s] & <- & Hin). apply List.filter_In in Hin as [Hin Hs].
    exists s. now split.
  - intros (s & Hin & Hs). exists (col, s). split; [reflexivity |].
    apply List.filter_In. now split.
Qed.

End PandasFacts.

(** ** The resolver *)

Section Resolver.

Variables (config : Config) (chart_type : string) (detected : detected_columns).

(** Each key of the fragment is resolved on its own. *)
Lemma get_chart_config_lookup (key : string) :
  get_chart_config config chart_type detected !! key
  = resolve detected key <$> chart_conf config chart_type !! key.
Proof.
  unfold get_chart_config. generalize (chart_conf config chart_type).
  intros m. revert key.
  apply (map_fold_weak_ind
           (fun r (m : gmap string cfg) =>
              forall key, r !! key = resolve detected key <$> m !! key)).
  - intros key. now rewrite !lookup_empty.
  - intros i x m' r Hfresh IH key.
    destruct (decide (i = key)) as [-> | Hne].
    + now rewrite !lookup_insert_eq.
    + rewrite !lookup_insert_ne by assumption. apply IH.
Qed.

Lemma get_chart_config_absent (key : string) :
  chart_conf config chart_type !! key = None ->
  get_chart_config config chart_type detected !! key = None.
Proof. intros H. now rewrite get_chart_config_lookup, H. Qed.

Lemma get_chart_config_present (key : string) (value : cfg) :
  chart_conf config chart_type !! key = Some value ->
  get_chart_config config chart_type detected !! key
  = Some (resolve detected key value).
Proof. intros H. now rewrite get_chart_config_lookup, H. Qed.

End Resolver.

Lemma contains_mentions word key :
  PyStr.contains word key = true <-> mentions word key.
Proof. apply PyStrFacts.contains_iff. Qed.

Lemma not_contains_mentions word key :
  PyStr.contains word key = false <-> ~ mentions word key.
Proof.
  rewrite <- contains_mentions. destruct (PyStr.contains word key); split;
    congruence.
Qed.

(** C9: the resolved configuration has exactly the keys of the fragment. *)
Theorem get_chart_config_same_keys config chart_type detected :
  dom (get_chart_config config chart_type detected)
  = dom (chart_conf config chart_type).
Proof.
  apply set_eq. intros key.
  rewrite !elem_of_dom, get_chart_config_lookup.
  apply fmap_is_Some.
Qed.

(** C1, as stated, fails: a [category_column] key that the fragment does not
    mention is not in the resolved configuration, although the profile has a
    best categorical column. *)
Lemma absent_category_column_not_resolved :
  let detected := auto_detect_columns Samples.regions_df in
  let bar_conf := get_chart_config Samples.sparse_config "bar_chart" detected in
  chart_conf Samples.sparse_config "bar_chart" !! "category_column" = None /\
  best_categorical detected = Some "region" /\
  bar_conf !! "category_column" = None /\
  Py.get bar_conf "category_column" <> Py.of_option (best_categorical detected).
Proof. vm_compute. repeat split; discriminate. Qed.

(** C1, amended: a key that is present with the value ["auto"] or null is
    given the default of its role: the best categorical column for a key with
    "category" in its name; otherwise the best numeric column for a key with
    "value" or "y_col" in its name ([y_columns] left aside); otherwise, for a
    key with "x_col", the best categorical column or else the first date
    column; null for [title]; its own value for any other key. A key that is
    absent from the fragment is absent from the result. *)
Theorem get_chart_config_auto config chart_type detected key value :
  let result := get_chart_config config chart_type detected in
  (chart_conf config chart_type !! key = None -> result !! key = None) /\
  (chart_conf config chart_type !! key = Some value ->
   value = CStr "auto" \/ value = CNone ->
   (mentions "category" key ->
    result !! key = Some (Py.of_option (best_categorical detected))) /\
   (~ mentions "category" key ->
    mentions "value" key \/ mentions "y_col" key ->
    key <> "y_columns" ->
    result !! key = Some (Py.of_option (best_numeric detected))) /\
   (~ mentions "category" key -> ~ mentions "value" key ->
    ~ mentions "y_col" key -> mentions "x_col" key ->
    result !! key =
      Some (if PyStr.truthy (best_categorical detected)
            then Py.of_option (best_categorical detected)
            else Py.of_option (head (date detected)))) /\
   (key = "title" -> result !! key = Some CNone) /\
   (~ mentions "category" key -> ~ mentions "value" key ->
    ~ mentions "y_col" key -> ~ mentions "x_col" key -> key <> "title" ->
    result !! key = Some value)).
Proof.
  intros result. split; [apply get_chart_config_absent |].
  intros Hkey Hauto. subst result.
  rewrite (get_chart_config_present _ _ _ _ _ Hkey).
  assert (Hres : resolve detected key value = auto_assign detected key value).
  { unfold resolve. now destruct Hauto as [-> | ->]. }
  rewrite Hres. unfold auto_assign. repeat split.
  - intros Hcat. apply contains_mentions in Hcat. now rewrite Hcat.
  - intros Hcat Hval _. apply not_contains_mentions in Hcat. rewrite Hcat.
    rewrite <- !contains_mentions, <- orb_true_iff in Hval. now rewrite Hval.
  - intros Hcat Hval Hy Hx. apply not_contains_mentions in Hcat, Hval, Hy.
    apply contains_mentions in Hx. rewrite Hcat, Hval, Hy, Hx. simpl.
    unfold Py.or. destruct (best_categorical detected) as [[| c s] |]; simpl;
      try reflexivity; now destruct (date detected).
  - intros ->. reflexivity.
  - intros Hcat Hval Hy Hx Htitle.
    apply not_contains_mentions in Hcat, Hval, Hy, Hx.
    rewrite Hcat, Hval, Hy, Hx. simpl.
    apply String.eqb_neq in Htitle. rewrite Htitle.
    destruct (String.eqb_spec key "y_columns") as [-> | _]; [| reflexivity].
    discriminate Hy.
Qed.

Lemma get_chart_config_auto_witness :
  let detected := auto_detect_columns Samples.regions_df in
  get_chart_config Samples.default_config "bar_chart" detected !! "category_column"
  = Some (CStr "region").
Proof.
  intros detected.
  destruct (get_chart_config_auto Samples.default_config "bar_chart" detected
              "category_column" (CStr "auto")) as [_ Hpresent].
  destruct Hpresent as [Hcategory _].
  - reflexivity.
  - left. reflexivity.
  - apply Hcategory. exists "", "_column". reflexivity.
Defined.

(** C8, as stated, fails: a null value is supplied for [category_column], it
    differs from ["auto"], and the resolver replaces it. *)
Lemma null_value_not_preserved :
  let detected := auto_detect_columns Samples.regions_df in
  chart_conf Samples.null_config "bar_chart" !! "category_column" = Some CNone /\
  CNone <> CStr "auto" /\
  get_chart_config Samples.null_config "bar_chart" detected !! "category_column"
  = Some (CStr "region").
Proof. vm_compute. repeat split; discriminate. Qed.

(** C8, amended: a value that is neither ["auto"] nor null is preserved
    unchanged under its key. *)
Theorem get_chart_config_explicit config chart_type detected key value :
  chart_conf config chart_type !! key = Some value ->
  value <> CStr "auto" ->
  value <> CNone ->
  get_chart_config config chart_type detected !! key = Some value.
Proof.
  intros Hkey Hauto Hnull.
  rewrite (get_chart_config_present _ _ _ _ _ Hkey). f_equal.
  unfold resolve. destruct value as [| b | z | s | l]; try reflexivity.
  - contradiction.
  - simpl. destruct (String.eqb_spec s "auto") as [-> | _];
      [contradiction | reflexivity].
Qed.

Lemma get_chart_config_explicit_witness :
  get_chart_config Samples.null_config "bar_chart"
    (auto_detect_columns Samples.regions_df) !! "value_column"
  = Some (CStr "revenue").
Proof.
  apply get_chart_config_explicit.
  - reflexivity.
  - discriminate.
  - discriminate.
Defined.

(** ** The classifier *)


Lemma Qlt_three_tenths (n c : Z) :
  (inject_Z n * (3 # 10) < inject_Z c)%Q <-> 3 * n < 10 * c.
Proof. unfold Qlt. simpl. lia. Qed.

Section Threshold.

Variable df : DataFrame.
Hypothesis unique_names : List.NoDup (columns df).
Hypothesis rows : rectangular df.
Hypothesis fits : Z.of_nat (df_len df) <= 2 ^ 51.

Lemma enough_values_iff col s :
  In (col, s) (df_columns df) ->
  enough_values df col = true <->
  3 * Z.of_nat (df_len df) < 10 * notna_sum s.
Proof.
  intros Hin. unfold enough_values, getitem.
  rewrite (PandasFacts.In_getitem_columns _ _ _ unique_names Hin).
  apply Float64Facts.int_gt_three_tenths; [lia |].
  pose proof (PandasFacts.notna_sum_le s) as Hle.
  pose proof (proj1 (List.Forall_forall _ _) rows _ Hin) as Hsize.
  simpl in Hsize. rewrite Hsize in Hle. exact Hle.
Qed.

Lemma valid_columns_iff incl col :
  In col (List.filter (enough_values df) (select_dtypes incl df)) <->
  exists s, In (col, s) (df_columns df) /\ incl s = true /\
            (inject_Z (Z.of_nat (df_len df)) * (3 # 10) < inject_Z (notna_sum s))%Q.
Proof.
  rewrite List.filter_In, PandasFacts.In_select_dtypes. split.
  - intros [(s & Hin & Hs) Hen]. exists s. repeat split; try assumption.
    apply Qlt_three_tenths. now apply (enough_values_iff col s Hin).
  - intros (s & Hin & Hs & Hlt). split; [now exists s |].
    apply (enough_values_iff col s Hin). now apply Qlt_three_tenths.
Qed.

End Threshold.

Lemma column_unique (cols : list (string * series)) col s s' :
  List.NoDup (map fst cols) -> In (col, s) cols -> In (col, s') cols -> s = s'.
Proof.
  intros Hnd Hs Hs'.
  apply (PandasFacts.In_getitem_columns _ _ _ Hnd) in Hs, Hs'. congruence.
Qed.

(** C4: a numeric (resp. text) column is in the numeric (resp. categorical)
    list exactly when its count of non-null values exceeds 0.30 times the row
    count; a column filled to exactly 0.30 is in neither list and one filled
    to 0.3000001 is in the list of its kind. The row count is at most 2^51,
    so that the product with the double 0.3 is exact enough. *)
Theorem valid_columns_threshold df col :
  List.NoDup (columns df) ->
  rectangular df ->
  Z.of_nat (df_len df) <= 2 ^ 51 ->
  let detected := auto_detect_columns df in
  let len := inject_Z (Z.of_nat (df_len df)) in
  (In col (numeric detected) <->
   exists s, In (col, s) (df_columns df) /\ is_number s = true /\
             (len * (3 # 10) < inject_Z (notna_sum s))%Q) /\
  (In col (categorical detected) <->
   exists s, In (col, s) (df_columns df) /\ is_object_or_category s = true /\
             (len * (3 # 10) < inject_Z (notna_sum s))%Q) /\
  (forall s, In (col, s) (df_columns df) ->
     (inject_Z (notna_sum s) == len * (3 # 10))%Q ->
     ~ In col (numeric detected) /\ ~ In col (categorical detected)) /\
  (forall s, In (col, s) (df_columns df) ->
     (0 < len)%Q ->
     (inject_Z (notna_sum s) == len * (3000001 # 10000000))%Q ->
     (is_number s = true -> In col (numeric detected)) /\
     (is_object_or_category s = true -> In col (categorical detected))).
Proof.
  intros Hnd Hrect Hfits detected len.
  pose proof (valid_columns_iff df Hnd Hrect Hfits) as Hvalid.
  split; [apply Hvalid |]. split; [apply Hvalid |]. split.
  - intros s Hin Heq.
    assert (Hno : forall incl,
               ~ In col (List.filter (enough_values df) (select_dtypes incl df))).
    { intros incl Hcol. apply Hvalid in Hcol as (s' & Hin' & _ & Hlt).
      rewrite (column_unique _ _ _ _ Hnd Hin Hin'), Heq in *.
      now apply Qlt_irrefl in Hlt. }
    split; apply Hno.
  - intros s Hin Hpos Heq.
    assert (Hlt : (len * (3 # 10) < inject_Z (notna_sum s))%Q).
    { rewrite Heq. unfold len in *. unfold Qlt in *. simpl in *. lia. }
    split; intros Hkind; apply Hvalid; exists s; repeat split; assumption.
Qed.

Lemma valid_columns_threshold_witness :
  In "revenue" (numeric (auto_detect_columns Samples.sparse_df)) /\
  ~ In "industry" (categorical (auto_detect_columns Samples.sparse_df)).
Proof.
  assert (Hnd : List.NoDup (columns Samples.sparse_df)).
  { repeat (constructor; [simpl; intuition discriminate |]). constructor. }
  assert (Hrect : rectangular Samples.sparse_df) by (repeat constructor).
  assert (Hfits : Z.of_nat (df_len Samples.sparse_df) <= 2 ^ 51)
    by (simpl; lia).
  split.
  - destruct (valid_columns_threshold Samples.sparse_df "revenue"
                Hnd Hrect Hfits) as (Hnum & _).
    apply Hnum. eexists. split; [left; reflexivity |].
    split; reflexivity.
  - destruct (valid_columns_threshold Samples.sparse_df "industry"
                Hnd Hrect Hfits) as (_ & _ & Hexact & _).
    eapply Hexact; [right; left; reflexivity | reflexivity].
Defined.

(** ** Sorting and tables *)

Module TableFacts.

#[global] Instance value_ge_total : Total value_ge.
Proof.
  intros a b. unfold value_ge. rewrite !Qle_bool_iff.
  destruct (Qlt_le_dec (snd a) (snd b)) as [Hlt | Hle].
  - right. now apply Qlt_le_weak.
  - left. exact Hle.
Qed.

#[global] Instance value_ge_trans : Transitive value_ge.
Proof.
  intros a b c. unfold value_ge. rewrite !Qle_bool_iff.
  intros Hab Hbc. now apply Qle_trans with (snd b).
Qed.


Lemma sort_values_desc_perm t : sort_values_desc t ≡ₚ t.
Proof. apply merge_sort_Permutation. Qed.

Lemma sort_values_desc_length t : length (sort_values_desc t) = length t.
Proof. apply Permutation_length, sort_values_desc_perm. Qed.


(** Every row kept by [firstn] is related to every row it leaves out. *)
Lemma StronglySorted_firstn_skipn {A} (R : relation A) n l a b :
  StronglySorted R l -> In a (firstn n l) -> In b (skipn n l) -> R a b.
Proof.
  intros Hl Ha Hb. rewrite <- (firstn_skipn n l) in Hl.
  apply (StronglySorted_app_1_elem_of R _ _ a b Hl);
    now apply list_elem_of_In.
Qed.


Lemma dropna_length t : (length (dropna t) <= length t)%nat.
Proof.
  induction t as [| [k [v |]] t IH]; simpl; lia.
Qed.



End TableFacts.

(** ** The bar chart *)

Section BarRows.

Variables (grouped : list (value * option Q)) (top_n : Z).






End BarRows.

(** ** Group keys *)

Module GroupFacts.

Lemma value_eqb_spec a b : reflect (a = b) (value_eqb a b).
Proof.
  destruct a as [x | x], b as [y | y]; simpl; try (constructor; congruence).
  - destruct (Z.eqb_spec x y); constructor; congruence.
  - destruct (String.eqb_spec x y); constructor; congruence.
Qed.

Lemma In_unique x l : In x (unique l) <-> In x l.
Proof.
  induction l as [| y l IH]; simpl; [reflexivity |].
  rewrite List.filter_In, IH.
  destruct (value_eqb_spec y x) as [-> | Hne]; simpl.
  - split; auto.
  - split; [intros [H | [H _]]; auto | intros [H | H]; auto].
Qed.

Lemma unique_NoDup l : List.NoDup (unique l).
Proof.
  induction l as [| y l IH]; simpl; constructor.
  - rewrite List.filter_In. intros [_ Hne].
    destruct (value_eqb_spec y y); [discriminate | congruence].
  - now apply List.NoDup_filter.
Qed.

Lemma group_keys_perm s :
  group_keys s ≡ₚ unique (dropna_cells (keys_of s)).
Proof. apply merge_sort_Permutation. Qed.

Lemma group_keys_NoDup s : List.NoDup (group_keys s).
Proof.
  apply NoDup_ListNoDup. rewrite group_keys_perm.
  apply NoDup_ListNoDup, unique_NoDup.
Qed.

Lemma In_dropna_cells {A} (x : A) l : In x (dropna_cells l) <-> In (Some x) l.
Proof.
  induction l as [| [y |] l IH]; simpl.
  - reflexivity.
  - rewrite IH. split; intros [H | H]; auto; left; congruence.
  - rewrite IH. split; [auto | intros [H | H]; [discriminate | assumption]].
Qed.

(** The group keys are the values that occur in the column. *)
Lemma In_group_keys k s : In k (group_keys s) <-> In (Some k) (keys_of s).
Proof.
  rewrite <- In_dropna_cells, <- (In_unique k (dropna_cells (keys_of s))).
  split; intros H; apply list_elem_of_In; apply list_elem_of_In in H.
  - now rewrite <- group_keys_perm.
  - now rewrite group_keys_perm.
Qed.


End GroupFacts.


Lemma bar_chart_built config df detected data x y :
  bar_chart config df detected = Built (BarChart data x y) ->
  let bar_conf := get_chart_config config "bar_chart" detected in
  exists grouped top_n,
    Py.get bar_conf "category_column" = CStr x /\
    Py.get bar_conf "value_column" = CStr y /\
    Py.get_default bar_conf "top_n" (CInt 15) = CInt top_n /\
    aggregate df x y (Py.get_default bar_conf "aggregation" (CStr "sum"))
    = Some grouped /\
    data = bar_rows grouped top_n.
Proof.
  intros H bar_conf. unfold bar_chart in H. fold bar_conf in H.
  destruct (_ && _ && _); [| discriminate].
  destruct (Py.get bar_conf "category_column") as [| | | cat_col |];
    try discriminate.
  destruct (Py.get bar_conf "value_column") as [| | | val_col |];
    try discriminate.
  destruct (Py.get_default bar_conf "top_n" (CInt 15)) as [| | top_n | |];
    try discriminate.
  destruct (aggregate df cat_col val_col _) as [grouped |] eqn:Hagg;
    [| discriminate].
  injection H as <- <- <-. exists grouped, top_n. now repeat split.
Qed.



(** ** The pie chart *)

Section PieRows.

Variables (grouped : list (value * option Q)) (top_n : Z).



End PieRows.

Lemma pie_chart_built config df detected data values labels :
  pie_chart config df detected = Built (PieChart data values labels) ->
  let pie_conf := get_chart_config config "pie_chart" detected in
  exists cat_col grouped top_n,
    Py.get pie_conf "category_column" = CStr cat_col /\
    Py.get pie_conf "value_column" = CStr values /\
    Py.get_default pie_conf "top_n" (CInt 10) = CInt top_n /\
    pie_category df detected cat_col = Some labels /\
    aggregate df labels values (Py.get_default pie_conf "aggregation" (CStr "sum"))
    = Some grouped /\
    data = pie_rows grouped top_n.
Proof.
  intros H pie_conf. unfold pie_chart in H. fold pie_conf in H.
  destruct (_ && _ && _); [| discriminate].
  destruct (Py.get pie_conf "category_column") as [| | | cat_col |];
    try discriminate.
  destruct (Py.get pie_conf "value_column") as [| | | val_col |];
    try discriminate.
  destruct (Py.get_default pie_conf "top_n" (CInt 10)) as [| | top_n | |];
    try discriminate.
  destruct (pie_category df detected cat_col) as [cat_col' |] eqn:Hcat;
    [| discriminate].
  destruct (aggregate df cat_col' val_col _) as [grouped |] eqn:Hagg;
    [| discriminate].
  injection H as <- <- <-. exists cat_col, grouped, top_n. now repeat split.
Qed.




Lemma few_unique_test (n : nat) :
  (3 <=? n)%nat && (n <=? 8)%nat = true <-> (3 <= n <= 8)%nat.
Proof. rewrite andb_true_iff, !Nat.leb_le. reflexivity. Qed.

Lemma few_unique_true df col : few_unique df col = Some true <-> few_distinct df col.
Proof.
  unfold few_unique, few_distinct. destruct (getitem df col) as [s |].
  - pose proof (few_unique_test (nunique s)) as Htest. split.
    + intros H. exists s. split; [reflexivity |]. apply Htest. congruence.
    + intros (s' & Hs & H). injection Hs as <-. f_equal. now apply Htest.
  - split; [discriminate | intros (s & Hs & _); discriminate].
Qed.

Lemma few_unique_false df col :
  few_unique df col = Some false <-> not_few_distinct df col.
Proof.
  unfold few_unique, not_few_distinct. destruct (getitem df col) as [s |].
  - pose proof (few_unique_test (nunique s)) as Htest. split.
    + intros H. exists s. split; [reflexivity |]. rewrite <- Htest. congruence.
    + intros (s' & Hs & H). injection Hs as <-. f_equal.
      rewrite <- Htest in H. now apply not_true_is_false.
  - split; [discriminate | intros (s & Hs & _); discriminate].
Qed.

(** The loop returns the first column with few distinct values, or the
    column it was given when there is none. *)
Lemma prefer_few_unique_first df cols cat_col col :
  prefer_few_unique df cols cat_col = Some col ->
  (exists before after,
     cols = (before ++ col :: after)%list /\
     few_distinct df col /\ Forall (not_few_distinct df) before) \/
  (col = cat_col /\ Forall (not_few_distinct df) cols).
Proof.
  induction cols as [| c cols IH]; simpl.
  - intros [= ->]. right. split; [reflexivity | constructor].
  - destruct (few_unique df c) as [[|] |] eqn:Hc; [| | discriminate].
    + intros [= ->]. left. exists [], cols.
      split; [reflexivity |]. split; [now apply few_unique_true | constructor].
    + intros H. apply few_unique_false in Hc.
      destruct (IH H) as [(before & after & -> & Hcol & Hbefore) | [-> Hall]].
      * left. exists (c :: before), after.
        split; [reflexivity |]. split; [assumption | now constructor].
      * right. split; [reflexivity | now constructor].
Qed.

Lemma getitem_columns_some (cols : list (string * series)) col :
  In col (map fst cols) -> is_Some (getitem_columns cols col).
Proof.
  induction cols as [| [name s] cols IH]; simpl; [contradiction |].
  intros Hin. destruct (String.eqb_spec name col) as [-> | Hne]; [eauto |].
  destruct Hin as [Heq | Hin]; [contradiction | now apply IH].
Qed.

Lemma prefer_few_unique_total df cols cat_col :
  Forall (fun c => In c (columns df)) cols ->
  is_Some (prefer_few_unique df cols cat_col).
Proof.
  induction 1 as [| c cols Hc _ IH]; simpl; [eauto |].
  unfold few_unique, getitem.
  destruct (getitem_columns_some _ _ Hc) as [s ->].
  destruct (_ && _); [eauto | exact IH].
Qed.

Lemma categorical_columns df :
  Forall (fun c => In c (columns df)) (categorical (auto_detect_columns df)).
Proof.
  apply List.Forall_forall. intros c Hc. simpl in Hc.
  apply List.filter_In in Hc as [Hc _].
  apply PandasFacts.In_select_dtypes in Hc as (s & Hin & _).
  apply in_map_iff. now exists (c, s).
Qed.

(** C2: the pie chart takes, when its resolved category column is the best
    categorical column, the first column of the categorical list with 3 to 8
    distinct values if there is one, and keeps its column otherwise; the bar
    chart groups by its resolved category column as it is. With twenty regions
    and five statuses the bar chart is by region and the pie chart by
    status. *)
Theorem pie_category_override :
  (forall df detected cat_col col,
     pie_category df detected cat_col = Some col ->
     (Some cat_col <> best_categorical detected -> col = cat_col) /\
     (Some cat_col = best_categorical detected ->
      (exists before after,
         categorical detected = (before ++ col :: after)%list /\
         few_distinct df col /\ Forall (not_few_distinct df) before) \/
      (col = cat_col /\ Forall (not_few_distinct df) (categorical detected)))) /\
  (forall df cat_col,
     is_Some (pie_category df (auto_detect_columns df) cat_col)) /\
  (forall config df detected data values labels,
     pie_chart config df detected = Built (PieChart data values labels) ->
     exists cat_col,
       Py.get (get_chart_config config "pie_chart" detected) "category_column"
       = CStr cat_col /\
       pie_category df detected cat_col = Some labels) /\
  (forall config df detected data x y,
     bar_chart config df detected = Built (BarChart data x y) ->
     Py.get (get_chart_config config "bar_chart" detected) "category_column"
     = CStr x) /\
  (nunique <$> getitem Samples.regions_df "region" = Some 20%nat /\
   nunique <$> getitem Samples.regions_df "status" = Some 5%nat /\
   best_categorical (auto_detect_columns Samples.regions_df) = Some "region" /\
   exists bar_data pie_data,
     create_visualizations Samples.default_config Samples.regions_df
     = Some [BarChart bar_data "region" "revenue";
             PieChart pie_data "revenue" "status"]).
Proof.
  split; [| split; [| split; [| split]]].
  - intros df detected cat_col col. unfold pie_category.
    destruct (decide (Some cat_col = best_categorical detected)) as [Heq | Hne].
    + intros H. split; [contradiction |]. intros _.
      now apply prefer_few_unique_first.
    + intros [= ->]. split; [reflexivity | contradiction].
  - intros df cat_col. unfold pie_category.
    destruct (decide _); [| eauto].
    apply prefer_few_unique_total, categorical_columns.
  - intros config df detected data values labels Hbuilt.
    destruct (pie_chart_built _ _ _ _ _ _ Hbuilt)
      as (cat_col & grouped & top_n & Hcat & _ & _ & Hpie & _).
    now exists cat_col.
  - intros config df detected data x y Hbuilt.
    now destruct (bar_chart_built _ _ _ _ _ _ Hbuilt)
      as (grouped & top_n & Hcat & _).
  - repeat split; try (vm_compute; reflexivity).
    eexists _, _. vm_compute. reflexivity.
Qed.

(** ** The line chart *)

Module LineFacts.

Lemma dropna_rows_length g : (length (dropna_rows g) <= length g)%nat.
Proof.
  induction g as [| [k vs] g IH]; simpl; [lia |].
  destruct (all_some vs); simpl; lia.
Qed.

Lemma line_rows_length g :
  (length (line_rows g) <= 20 /\ length (line_rows g) <= length g)%nat.
Proof.
  unfold line_rows, head_rows. rewrite length_firstn.
  pose proof (dropna_rows_length g). change (Z.to_nat 20) with 20%nat. lia.
Qed.

Lemma all_some_map {A B} (f : A -> B) (l : list A) :
  all_some (map (fun a => Some (f a)) l) = Some (map f l).
Proof.
  induction l as [| a l IH]; simpl; [reflexivity |]. now rewrite IH.
Qed.

(** A sum is never NaN: [dropna] keeps every group. *)
Lemma dropna_rows_sums (cells_of : value -> list (option Z) -> list (option Z))
    (cols : list (list (option Z))) (keys : list value) :
  dropna_rows
    (map (fun k => (k, map (fun cells => agg_sum (cells_of k cells)) cols)) keys)
  = map (fun k =>
           (k, map (fun cells => inject_Z (sum_Z (dropna_cells (cells_of k cells))))
                   cols))
        keys.
Proof.
  induction keys as [| k keys IH]; simpl; [reflexivity |].
  unfold agg_sum at 1.
  rewrite (all_some_map
             (fun cells => inject_Z (sum_Z (dropna_cells (cells_of k cells))))).
  now rewrite IH.
Qed.

Lemma ascii_compare_trans a b c :
  Ascii.compare a b <> Gt -> Ascii.compare b c <> Gt -> Ascii.compare a c <> Gt.
Proof.
  unfold Ascii.compare. rewrite !N.compare_le_iff. lia.
Qed.

Lemma ascii_compare_eq a b : Ascii.compare a b = Eq <-> a = b.
Proof.
  split; [apply Ascii.compare_eq_iff |].
  intros ->. unfold Ascii.compare. apply N.compare_refl.
Qed.

Lemma string_leb_trans a b c :
  String.leb a b = true -> String.leb b c = true -> String.leb a c = true.
Proof.
  unfold String.leb. revert b c.
  induction a as [| x a IH]; intros [| y b] [| z c]; simpl;
    try congruence.
  destruct (Ascii.compare x y) eqn:Hxy; try congruence;
    destruct (Ascii.compare y z) eqn:Hyz; try congruence;
    intros Hab Hbc.
  - apply ascii_compare_eq in Hxy, Hyz. subst y z.
    rewrite (proj2 (ascii_compare_eq x x) eq_refl). now apply IH with b.
  - apply ascii_compare_eq in Hxy. subst y. now rewrite Hyz.
  - apply ascii_compare_eq in Hyz. subst z. now rewrite Hxy.
  - assert (Hxz : Ascii.compare x z <> Gt)
      by (apply ascii_compare_trans with y; congruence).
    destruct (Ascii.compare x z) eqn:Hcmp; try congruence.
    apply ascii_compare_eq in Hcmp. subst z.
    unfold Ascii.compare in Hxy, Hyz.
    rewrite N.compare_lt_iff in Hxy, Hyz. lia.
Qed.

#[global] Instance value_le_total : Total value_le.
Proof.
  intros [x | x] [y | y]; unfold value_le; simpl; auto.
  - rewrite !Z.leb_le. lia.
  - apply String.leb_total.
Qed.

#[global] Instance value_le_trans : Transitive value_le.
Proof.
  intros [x | x] [y | y] [z | z]; unfold value_le; simpl; try congruence.
  - rewrite !Z.leb_le. lia.
  - apply string_leb_trans.
Qed.

Lemma group_keys_sorted s : StronglySorted value_le (group_keys s).
Proof. apply StronglySorted_merge_sort; apply _. Qed.

End LineFacts.

Lemma line_chart_built config df detected rows x ys :
  line_chart config df detected = Built (LineChart rows x ys) ->
  let line_conf := get_chart_config config "line_chart" detected in
  line_x line_conf detected = CStr x /\
  y_list (line_y line_conf detected) = Some ys /\
  (1 < length rows)%nat /\
  exists g, grouped_sums df x ys = Some g /\ rows = line_rows g.
Proof.
  intros H line_conf. unfold line_chart in H. fold line_conf in H.
  destruct (_ && _); [| discriminate].
  destruct (_ && _); [| discriminate].
  unfold line_data in H.
  destruct (line_x line_conf detected) as [| | | x' |]; try discriminate.
  destruct (y_list (line_y line_conf detected)) as [ys' |]; [| discriminate].
  destruct (grouped_sums df x' ys') as [g |] eqn:Hg; [| discriminate].
  simpl in H.
  destruct (Nat.ltb_spec 1 (length (line_rows g))); [| discriminate].
  injection H as <- <- <-. repeat split; [assumption |]. now exists g.
Qed.

(** C7: a line chart block whose grouped data has fewer than two rows ends
    without a chart and without an exception, and the table of a built line
    chart has at least two and at most twenty rows. *)
Theorem line_chart_skip_and_cap config df detected :
  let line_conf := get_chart_config config "line_chart" detected in
  (forall x ys g,
     line_x line_conf detected = CStr x ->
     y_list (line_y line_conf detected) = Some ys ->
     grouped_sums df x ys = Some g ->
     (length g < 2 \/ length (line_rows g) < 2)%nat ->
     line_chart config df detected = Skipped) /\
  (forall rows x ys,
     line_chart config df detected = Built (LineChart rows x ys) ->
     (2 <= length rows <= 20)%nat).
Proof.
  intros line_conf. split.
  - intros x ys g Hx Hy Hg Hfew. unfold line_chart. fold line_conf.
    destruct (_ && _); [| reflexivity].
    destruct (_ && _); [| reflexivity].
    unfold line_data. rewrite Hx, Hy, Hg. simpl.
    pose proof (LineFacts.line_rows_length g) as [_ Hle].
    destruct (Nat.ltb_spec 1 (length (line_rows g))); [lia | reflexivity].
  - intros rows x ys Hbuilt.
    destruct (line_chart_built _ _ _ _ _ _ Hbuilt) as (_ & _ & Hlen & g & _ & ->).
    pose proof (LineFacts.line_rows_length g). lia.
Qed.

Lemma line_chart_skip_and_cap_witness :
  line_chart Samples.default_config Samples.flat_df
    (auto_detect_columns Samples.flat_df) = Skipped /\
  exists rows,
    line_chart Samples.default_config Samples.trend_df
      (auto_detect_columns Samples.trend_df)
    = Built (LineChart rows "step" ["revenue"]) /\
    (2 <= length rows <= 20)%nat.
Proof.
  split.
  - eapply (proj1 (line_chart_skip_and_cap Samples.default_config
                     Samples.flat_df (auto_detect_columns Samples.flat_df))).
    + vm_compute. reflexivity.
    + vm_compute. reflexivity.
    + vm_compute. reflexivity.
    + left. simpl. lia.
  - eexists. split; [vm_compute; reflexivity |].
    eapply (proj2 (line_chart_skip_and_cap Samples.default_config
                     Samples.trend_df (auto_detect_columns Samples.trend_df))).
    vm_compute. reflexivity.
Defined.

(** C3, as stated, fails: the first group in row order, ["z"], is not among
    the twenty groups of the line chart, and the twenty-first, ["a20"], is. *)
Lemma line_chart_not_in_row_order :
  let detected := auto_detect_columns Samples.trend_df in
  exists rows,
    line_chart Samples.default_config Samples.trend_df detected
    = Built (LineChart rows "step" ["revenue"]) /\
    map fst rows = [VStr "a01"; VStr "a02"; VStr "a03"; VStr "a04"; VStr "a05"; VStr "a06"; VStr "a07"; VStr "a08"; VStr "a09"; VStr "a10"; VStr "a11"; VStr "a12"; VStr "a13"; VStr "a14"; VStr "a15"; VStr "a16"; VStr "a17"; VStr "a18"; VStr "a19"; VStr "a20"] /\
    firstn 20 <$> (groups_in_row_order <$> getitem Samples.trend_df "step")
    = Some [VStr "z"; VStr "a01"; VStr "a02"; VStr "a03"; VStr "a04"; VStr "a05"; VStr "a06"; VStr "a07"; VStr "a08"; VStr "a09"; VStr "a10"; VStr "a11"; VStr "a12"; VStr "a13"; VStr "a14"; VStr "a15"; VStr "a16"; VStr "a17"; VStr "a18"; VStr "a19"].
Proof. eexists. vm_compute. repeat split; reflexivity. Qed.

(** C3, amended: the groups of a built line chart are the first twenty
    groups in ascending order of the x value, each with the sums of the y
    columns over its rows; the groups are the distinct non-null x values, and
    every group left out is no smaller than every group kept. *)
Theorem line_chart_groups config df detected rows x ys :
  line_chart config df detected = Built (LineChart rows x ys) ->
  exists s cols,
    getitem df x = Some s /\
    y_cells df x ys = Some cols /\
    rows = map (fun k =>
                  (k, map (fun cells =>
                             inject_Z (sum_Z (dropna_cells
                                                (group_cells (keys_of s) cells k))))
                          cols))
               (firstn 20 (group_keys s)) /\
    map fst rows = firstn 20 (group_keys s) /\
    StronglySorted value_le (group_keys s) /\
    List.NoDup (group_keys s) /\
    (forall k, In k (group_keys s) <-> In (Some k) (keys_of s)) /\
    (forall k k', In k (map fst rows) -> In k' (group_keys s) ->
                  ~ In k' (map fst rows) -> value_le k k').
Proof.
  intros Hbuilt.
  destruct (line_chart_built _ _ _ _ _ _ Hbuilt) as (_ & _ & _ & g & Hg & ->).
  unfold grouped_sums in Hg.
  destruct (getitem df x) as [s |]; [| discriminate].
  destruct (y_cells df x ys) as [cols |]; [| discriminate].
  injection Hg as <-. exists s, cols.
  assert (Hrows :
    line_rows
      (map (fun k =>
              (k, map (fun cells => agg_sum (group_cells (keys_of s) cells k)) cols))
           (group_keys s))
    = map (fun k =>
             (k, map (fun cells =>
                        inject_Z (sum_Z (dropna_cells
                                           (group_cells (keys_of s) cells k))))
                     cols))
          (firstn 20 (group_keys s))).
  { unfold line_rows, head_rows.
    rewrite (LineFacts.dropna_rows_sums
               (fun k cells => group_cells (keys_of s) cells k)).
    change (Z.to_nat 20) with 20%nat. apply firstn_map. }
  rewrite Hrows.
  assert (Hkeys : forall l : list value,
    map fst (map (fun k =>
                    (k, map (fun cells =>
                               inject_Z (sum_Z (dropna_cells
                                                  (group_cells (keys_of s) cells k))))
                            cols)) l) = l).
  { intros l. rewrite map_map. simpl. apply map_id. }
  rewrite Hkeys. repeat split; try reflexivity.
  - apply LineFacts.group_keys_sorted.
  - apply GroupFacts.group_keys_NoDup.
  - apply GroupFacts.In_group_keys.
  - apply GroupFacts.In_group_keys.
  - intros k k' Hk Hk' Hout.
    rewrite <- (firstn_skipn 20 (group_keys s)) in Hk'.
    apply in_app_or in Hk' as [Hkept | Hleft]; [contradiction |].
    apply (TableFacts.StronglySorted_firstn_skipn value_le 20 (group_keys s));
      [apply LineFacts.group_keys_sorted | assumption | assumption].
Qed.

Lemma line_chart_groups_witness :
  exists rows s,
    line_chart Samples.default_config Samples.trend_df
      (auto_detect_columns Samples.trend_df)
    = Built (LineChart rows "step" ["revenue"]) /\
    getitem Samples.trend_df "step" = Some s /\
    map fst rows = firstn 20 (group_keys s).
Proof.
  edestruct (line_chart_groups Samples.default_config Samples.trend_df
               (auto_detect_columns Samples.trend_df))
    as (s & cols & Hs & _ & _ & Hkeys & _).
  - vm_compute. reflexivity.
  - eexists _, s. split; [vm_compute; reflexivity |]. split; assumption.
Defined.

(** * Further properties of the pipeline *)

(** ** The classifier *)

Lemma In_valid_columns incl df col :
  In col (List.filter (enough_values df) (select_dtypes incl df)) ->
  exists s, In (col, s) (df_columns df) /\ incl s = true.
Proof.
  intros H. apply List.filter_In in H as [H _].
  now apply PandasFacts.In_select_dtypes.
Qed.

(** X1: with unique column names no column is in both the numeric and the
    categorical list. *)
Theorem numeric_categorical_disjoint df col :
  List.NoDup (columns df) ->
  In col (numeric (auto_detect_columns df)) ->
  ~ In col (categorical (auto_detect_columns df)).
Proof.
  intros Hnd Hnum Hcat. simpl in Hnum, Hcat.
  apply In_valid_columns in Hnum as (s & Hs & Hnumber).
  apply In_valid_columns in Hcat as (s' & Hs' & Hobject).
  rewrite (column_unique _ _ _ _ Hnd Hs Hs') in Hnumber.
  destruct s'; discriminate.
Qed.

Lemma numeric_categorical_disjoint_witness :
  ~ In "revenue" (categorical (auto_detect_columns Samples.sparse_df)).
Proof.
  apply numeric_categorical_disjoint.
  - repeat (constructor; [simpl; intuition discriminate |]). constructor.
  - vm_compute. tauto.
Defined.

Lemma filter_sublist {A} (f : A -> bool) (l : list A) :
  List.filter f l `sublist_of` l.
Proof.
  induction l as [| x l IH]; simpl; [constructor |].
  destruct (f x); [now apply sublist_skip | now apply sublist_cons].
Qed.

Lemma map_sublist {A B} (f : A -> B) (l1 l2 : list A) :
  l1 `sublist_of` l2 -> map f l1 `sublist_of` map f l2.
Proof.
  induction 1; simpl; [constructor | now apply sublist_skip | now apply sublist_cons].
Qed.

(** X2: the three lists of the profile keep the native column order: each is
    a subsequence of [df.columns]. *)
Theorem detected_columns_in_native_order df :
  numeric (auto_detect_columns df) `sublist_of` columns df /\
  categorical (auto_detect_columns df) `sublist_of` columns df /\
  date (auto_detect_columns df) `sublist_of` columns df.
Proof.
  assert (Hsel : forall incl,
             List.filter (enough_values df) (select_dtypes incl df)
             `sublist_of` columns df).
  { intros incl. etransitivity; [apply filter_sublist |].
    apply map_sublist, filter_sublist. }
  repeat split; [apply Hsel | apply Hsel | apply filter_sublist].
Qed.

Lemma round53_nonneg m : 0 <= m -> 0 <= Float64.round53 m.
Proof.
  intros Hm. unfold Float64.round53.
  destruct (Z.leb_spec (Z.log2 m - 52) 0) as [| Hshift]; [assumption |].
  apply Z.shiftl_nonneg.
  assert (0 <= Z.shiftr m (Z.log2 m - 52)) by now apply Z.shiftr_nonneg.
  destruct (_ || _); lia.
Qed.

Lemma enough_values_needs_a_value df col s :
  getitem df col = Some s -> notna_sum s = 0 -> enough_values df col = false.
Proof.
  intros Hs Hnull. unfold enough_values. rewrite Hs, Hnull.
  unfold Float64.int_gt, Float64.mul_three_tenths.
  apply Z.ltb_ge. change (Float64.round53 0) with 0. simpl.
  apply round53_nonneg. apply Z.mul_nonneg_nonneg; [| unfold Float64.three_tenths; lia].
  apply round53_nonneg. lia.
Qed.

(** X3: a column without any non-null value is in neither list, whatever the
    number of rows; a dataset without rows has an empty numeric and an empty
    categorical list and no best column. *)
Theorem empty_columns_are_not_valid df :
  (forall col s,
     List.NoDup (columns df) -> In (col, s) (df_columns df) ->
     notna_sum s = 0 ->
     ~ In col (numeric (auto_detect_columns df)) /\
     ~ In col (categorical (auto_detect_columns df))) /\
  (rectangular df -> df_len df = 0%nat ->
   numeric (auto_detect_columns df) = [] /\
   categorical (auto_detect_columns df) = [] /\
   best_numeric (auto_detect_columns df) = None /\
   best_categorical (auto_detect_columns df) = None).
Proof.
  split.
  - intros col s Hnd Hin Hnull.
    assert (Hno : enough_values df col = false).
    { apply enough_values_needs_a_value with s; [| assumption].
      now apply PandasFacts.In_getitem_columns. }
    simpl. rewrite !List.filter_In, Hno. split; intros [_ H]; discriminate.
  - intros Hrect Hlen.
    assert (Hnone : forall incl,
               List.filter (enough_values df) (select_dtypes incl df) = []).
    { intros incl.
      destruct (List.filter (enough_values df) (select_dtypes incl df))
        as [| col rest] eqn:Hfilter; [reflexivity | exfalso].
      assert (Hcol : In col (List.filter (enough_values df) (select_dtypes incl df)))
        by (rewrite Hfilter; now left).
      apply List.filter_In in Hcol as [Hcol Hen].
      apply PandasFacts.In_select_dtypes in Hcol as (s & Hs & _).
      destruct (getitem_columns_some (df_columns df) col) as [s' Hs'].
      { apply in_map_iff. now exists (col, s). }
      rewrite (enough_values_needs_a_value df col s' Hs') in Hen; [discriminate |].
      apply PandasFacts.getitem_columns_In in Hs'.
      pose proof (proj1 (List.Forall_forall _ _) Hrect _ Hs') as Hsize.
      simpl in Hsize. pose proof (PandasFacts.notna_sum_le s'). lia. }
    simpl. rewrite !Hnone. auto.
Qed.

Lemma empty_columns_are_not_valid_witness :
  ~ In "Created_Time" (numeric (auto_detect_columns Samples.sparse_df)).
Proof.
  eapply (proj1 (empty_columns_are_not_valid Samples.sparse_df)).
  - repeat (constructor; [simpl; intuition discriminate |]). constructor.
  - right. right. left. reflexivity.
  - reflexivity.
Defined.

(** ** The resolver *)

Lemma line_y_auto config detected value c :
  chart_conf config "line_chart" !! "y_columns" = Some value ->
  value = CStr "auto" \/ value = CNone ->
  best_numeric detected = Some c -> c <> "" ->
  line_y (get_chart_config config "line_chart" detected) detected = CStr c.
Proof.
  intros Hkey Hauto Hbest Hne. unfold line_y, Py.get.
  rewrite (get_chart_config_present _ _ _ _ _ Hkey).
  assert (Hres : resolve detected "y_columns" value = CStr c).
  { transitivity (Py.of_option (best_numeric detected));
      [now destruct Hauto as [-> | ->] | now rewrite Hbest]. }
  simpl. rewrite Hres. unfold Py.or. simpl.
  apply String.eqb_neq in Hne. now rewrite Hne.
Qed.

(** X4: a [y_columns] key left to the resolver gets the single best numeric
    column, not the first three numeric columns: the test for "y_col" in the
    key comes first. A line chart built from it has that one series. *)
Theorem y_columns_auto_is_one_column config df detected value :
  chart_conf config "line_chart" !! "y_columns" = Some value ->
  value = CStr "auto" \/ value = CNone ->
  get_chart_config config "line_chart" detected !! "y_columns"
  = Some (Py.of_option (best_numeric detected)) /\
  (forall c rows x ys,
     best_numeric detected = Some c -> c <> "" ->
     line_chart config df detected = Built (LineChart rows x ys) ->
     ys = [c]).
Proof.
  intros Hkey Hauto. split.
  - rewrite (get_chart_config_present _ _ _ _ _ Hkey). f_equal.
    now destruct Hauto as [-> | ->].
  - intros c rows x ys Hbest Hne Hbuilt.
    destruct (line_chart_built _ _ _ _ _ _ Hbuilt) as (_ & Hy & _).
    rewrite (line_y_auto _ _ _ _ Hkey Hauto Hbest Hne) in Hy.
    simpl in Hy. congruence.
Qed.

Lemma y_columns_auto_is_one_column_witness :
  get_chart_config Samples.default_config "line_chart"
    (auto_detect_columns Samples.trend_df) !! "y_columns"
  = Some (CStr "revenue").
Proof.
  apply (y_columns_auto_is_one_column Samples.default_config Samples.trend_df
           (auto_detect_columns Samples.trend_df) (CStr "auto")).
  - reflexivity.
  - left. reflexivity.
Defined.

Lemma auto_assign_fixed detected key value :
  is_auto value = true ->
  auto_assign detected key (auto_assign detected key value)
  = auto_assign detected key value.
Proof.
  intros _. unfold auto_assign.
  destruct (PyStr.contains "category" key); [reflexivity |].
  destruct (_ || _); [reflexivity |].
  destruct (PyStr.contains "x_col" key); [reflexivity |].
  destruct (String.eqb key "y_columns"); [reflexivity |].
  destruct (String.eqb key "title"); reflexivity.
Qed.

Lemma resolve_idempotent detected key value :
  resolve detected key (resolve detected key value) = resolve detected key value.
Proof.
  unfold resolve. destruct (is_auto value) eqn:Hauto.
  - destruct (is_auto (auto_assign detected key value)); [| reflexivity].
    now apply auto_assign_fixed.
  - now rewrite Hauto.
Qed.

(** X5: resolution is idempotent: a fragment that is already the resolver's
    result is returned as it is. *)
Theorem get_chart_config_idempotent config chart_type detected :
  let resolved := get_chart_config config chart_type detected in
  get_chart_config {| cfg_charts := Some {[chart_type := resolved]} |}
    chart_type detected
  = resolved.
Proof.
  intros resolved. apply map_eq. intros key.
  rewrite get_chart_config_lookup. unfold chart_conf. simpl.
  rewrite lookup_singleton_eq. simpl. subst resolved.
  rewrite get_chart_config_lookup.
  destruct (chart_conf config chart_type !! key) as [value |]; simpl;
    [| reflexivity].
  now rewrite resolve_idempotent.
Qed.

(** ** Skipped and failing charts *)

Lemma get_chart_config_empty config chart_type detected :
  chart_conf config chart_type = ∅ ->
  get_chart_config config chart_type detected = ∅.
Proof. intros H. unfold get_chart_config. rewrite H. apply map_fold_empty. Qed.

Lemma chart_conf_no_section config chart_type :
  cfg_charts config = None -> chart_conf config chart_type = ∅.
Proof. intros H. unfold chart_conf. rewrite H. simpl. now rewrite lookup_empty. Qed.

(** X6: without a [charts] section the bar and the pie chart are skipped,
    and a line chart that gets built runs over the best categorical column
    and the first three numeric columns. *)
Theorem no_charts_section config df detected :
  cfg_charts config = None ->
  bar_chart config df detected = Skipped /\
  pie_chart config df detected = Skipped /\
  (forall rows x ys,
     line_chart config df detected = Built (LineChart rows x ys) ->
     best_categorical detected = Some x /\ ys = firstn 3 (numeric detected)).
Proof.
  intros Hnone.
  pose proof (fun ct => get_chart_config_empty config ct detected
                          (chart_conf_no_section config ct Hnone)) as Hempty.
  split; [| split].
  - unfold bar_chart. rewrite Hempty. unfold Py.get. rewrite lookup_empty.
    simpl. now rewrite andb_false_r.
  - unfold pie_chart. rewrite Hempty. unfold Py.get. rewrite lookup_empty.
    simpl. now rewrite andb_false_r.
  - intros rows x ys Hbuilt.
    destruct (line_chart_built _ _ _ _ _ _ Hbuilt) as (Hx & Hy & _).
    rewrite Hempty in Hx, Hy. unfold line_x, line_y, Py.get in Hx, Hy.
    rewrite lookup_empty in Hx, Hy. simpl in Hx, Hy. unfold Py.or in Hx, Hy.
    simpl in Hx, Hy. split.
    + destruct (best_categorical detected) as [c |]; simpl in Hx;
        [| discriminate].
      destruct (negb (String.eqb c "")); congruence.
    + destruct (firstn 3 (numeric detected)) as [| y l]; simpl in Hy; congruence.
Qed.

Lemma no_charts_section_witness :
  bar_chart MoreSamples.no_charts_config Samples.trend_df
    (auto_detect_columns Samples.trend_df) = Skipped.
Proof. now apply no_charts_section. Defined.

Lemma get_unset config chart_type detected key :
  unset (chart_conf config chart_type !! key) ->
  Py.get (get_chart_config config chart_type detected) key = CNone \/
  Py.get (get_chart_config config chart_type detected) key
  = auto_assign detected key (CStr "auto") \/
  Py.get (get_chart_config config chart_type detected) key
  = auto_assign detected key CNone.
Proof.
  unfold Py.get. rewrite get_chart_config_lookup.
  intros [-> | [-> | ->]]; simpl; auto.
Qed.

Lemma get_unset_category config chart_type detected :
  unset (chart_conf config chart_type !! "category_column") ->
  best_categorical detected = None ->
  Py.get (get_chart_config config chart_type detected) "category_column" = CNone.
Proof.
  intros Hunset Hbest.
  destruct (get_unset config chart_type detected _ Hunset) as [H | [H | H]];
    rewrite H; [reflexivity | |];
    change (Py.of_option (best_categorical detected) = CNone);
    now rewrite Hbest.
Qed.

Lemma get_unset_value config chart_type detected :
  unset (chart_conf config chart_type !! "value_column") ->
  best_numeric detected = None ->
  Py.get (get_chart_config config chart_type detected) "value_column" = CNone.
Proof.
  intros Hunset Hbest.
  destruct (get_unset config chart_type detected _ Hunset) as [H | [H | H]];
    rewrite H; [reflexivity | |];
    change (Py.of_option (best_numeric detected) = CNone);
    now rewrite Hbest.
Qed.

(** X7: a bar or pie chart whose category column is left to the resolver is
    skipped, without an exception, when the profile has no categorical
    column; likewise for the value column and the numeric columns. *)
Theorem charts_skipped_without_columns config df detected :
  (unset (chart_conf config "bar_chart" !! "category_column") ->
   best_categorical detected = None ->
   bar_chart config df detected = Skipped) /\
  (unset (chart_conf config "bar_chart" !! "value_column") ->
   best_numeric detected = None ->
   bar_chart config df detected = Skipped) /\
  (unset (chart_conf config "pie_chart" !! "category_column") ->
   best_categorical detected = None ->
   pie_chart config df detected = Skipped) /\
  (unset (chart_conf config "pie_chart" !! "value_column") ->
   best_numeric detected = None ->
   pie_chart config df detected = Skipped).
Proof.
  repeat split; intros Hunset Hbest.
  - unfold bar_chart. rewrite (get_unset_category _ _ _ Hunset Hbest).
    simpl. now rewrite andb_false_r.
  - unfold bar_chart. rewrite (get_unset_value _ _ _ Hunset Hbest).
    simpl. now rewrite andb_false_r.
  - unfold pie_chart. rewrite (get_unset_category _ _ _ Hunset Hbest).
    simpl. now rewrite andb_false_r.
  - unfold pie_chart. rewrite (get_unset_value _ _ _ Hunset Hbest).
    simpl. now rewrite andb_false_r.
Qed.

Lemma charts_skipped_without_columns_witness :
  bar_chart Samples.default_config MoreSamples.numbers_df
    (auto_detect_columns MoreSamples.numbers_df) = Skipped.
Proof.
  apply (proj1 (charts_skipped_without_columns Samples.default_config
                  MoreSamples.numbers_df
                  (auto_detect_columns MoreSamples.numbers_df))).
  - right. left. reflexivity.
  - reflexivity.
Defined.

(** X8: an enabled bar chart whose configured category column is not a
    column of the dataset is not skipped: the lookup raises and the whole
    run ends with the exception. *)
Theorem missing_category_column_raises config df cat_col val_col :
  let detected := auto_detect_columns df in
  Py.truthy (enabled config "bar_chart") = true ->
  chart_conf config "bar_chart" !! "category_column" = Some (CStr cat_col) ->
  cat_col <> "auto" -> cat_col <> "" ->
  Py.get (get_chart_config config "bar_chart" detected) "value_column"
  = CStr val_col ->
  val_col <> "" ->
  getitem df cat_col = None ->
  bar_chart config df detected = Raised /\
  create_visualizations config df = None.
Proof.
  intros detected Hen Hcat Hauto Hne Hval Hvne Hmissing.
  assert (Hbar : bar_chart config df detected = Raised).
  { unfold bar_chart. rewrite Hen, Hval. unfold Py.get at 1 2.
    rewrite (get_chart_config_present _ _ _ _ _ Hcat).
    unfold resolve, is_auto. apply String.eqb_neq in Hauto. rewrite Hauto.
    destruct cat_col as [| a cat_col]; [congruence |].
    destruct val_col as [| b val_col]; [congruence |].
    simpl.
    destruct (Py.get_default _ "top_n" (CInt 15)); try reflexivity.
    unfold aggregate. rewrite Hmissing.
    match goal with |- context [if ?c then _ else _] => destruct c end;
      reflexivity. }
  split; [exact Hbar |].
  unfold create_visualizations. fold detected. now rewrite Hbar.
Qed.

Lemma missing_category_column_raises_witness :
  create_visualizations MoreSamples.missing_column_config Samples.regions_df
  = None.
Proof.
  apply (missing_category_column_raises MoreSamples.missing_column_config
           Samples.regions_df "country" "revenue").
  - reflexivity.
  - reflexivity.
  - discriminate.
  - discriminate.
  - reflexivity.
  - discriminate.
  - reflexivity.
Defined.

(** ** Sizes and totals of the bar and the pie chart *)



Lemma dropna_some (f : value -> Q) (keys : list value) :
  dropna (map (fun k => (k, Some (f k))) keys) = map (fun k => (k, f k)) keys.
Proof.
  induction keys as [| k keys IH]; simpl; [reflexivity |]. now rewrite IH.
Qed.

Lemma group_keys_length s : length (group_keys s) = nunique s.
Proof. apply Permutation_length, GroupFacts.group_keys_perm. Qed.

(** The tables of [sum] and [count] have one non-null row per group. *)
Lemma aggregate_sum_count df cat_col val_col agg grouped :
  aggregate df cat_col val_col agg = Some grouped ->
  agg = CStr "sum" \/ agg = CStr "count" ->
  exists s (f : value -> Q),
    getitem df cat_col = Some s /\
    grouped = map (fun k => (k, Some (f k))) (group_keys s).
Proof.
  unfold aggregate. destruct (String.eqb cat_col val_col); [discriminate |].
  destruct (getitem df cat_col) as [s |]; [| discriminate].
  intros H [-> | ->].
  - destruct (decide (CStr "sum" = CStr "count")) as [Heq | _];
      [discriminate Heq |].
    change (named_agg "sum") with (Some agg_sum) in H.
    destruct (getitem df val_col) as [[cells | | |] |]; try discriminate.
    injection H as <-.
    exists s, (fun k => inject_Z (sum_Z (dropna_cells
                                            (group_cells (keys_of s) cells k)))).
    split; reflexivity.
  - destruct (decide (CStr "count" = CStr "count")) as [_ | Hne];
      [| contradiction].
    injection H as <-.
    exists s, (fun k => inject_Z (Z.of_nat (length
                                              (group_cells (keys_of s) (keys_of s) k)))).
    split; reflexivity.
Qed.

(** X10: with the aggregation [sum] (the default) or [count] no group is
    dropped: the bar chart has one row per distinct non-null category, cut to
    top-N when top-N is positive. *)
Theorem bar_chart_row_count config df detected data x y :
  bar_chart config df detected = Built (BarChart data x y) ->
  let bar_conf := get_chart_config config "bar_chart" detected in
  Py.get_default bar_conf "aggregation" (CStr "sum") = CStr "sum" \/
  Py.get_default bar_conf "aggregation" (CStr "sum") = CStr "count" ->
  exists s top_n,
    getitem df x = Some s /\
    Py.get_default bar_conf "top_n" (CInt 15) = CInt top_n /\
    length data = if 0 <? top_n then Nat.min (Z.to_nat top_n) (nunique s)
                  else nunique s.
Proof.
  intros Hbuilt bar_conf Hkind.
  destruct (bar_chart_built _ _ _ _ _ _ Hbuilt)
    as (grouped & top_n & _ & _ & Htop & Hagg & ->).
  fold bar_conf in Htop, Hagg.
  destruct (aggregate_sum_count _ _ _ _ _ Hagg Hkind) as (s & f & Hs & ->).
  exists s, top_n. split; [exact Hs |]. split; [exact Htop |].
  unfold bar_rows, head_rows. rewrite dropna_some.
  assert (Hlen : length (sort_values_desc (map (fun k => (k, f k)) (group_keys s)))
                 = nunique s).
  { now rewrite TableFacts.sort_values_desc_length, length_map, group_keys_length. }
  destruct (0 <? top_n); [| exact Hlen].
  now rewrite length_firstn, Hlen.
Qed.

Lemma bar_chart_row_count_witness :
  exists data,
    bar_chart Samples.default_config Samples.regions_df
      (auto_detect_columns Samples.regions_df)
    = Built (BarChart data "region" "revenue") /\
    length data = 15%nat.
Proof.
  eexists. split; [vm_compute; reflexivity |].
  edestruct (bar_chart_row_count Samples.default_config Samples.regions_df
               (auto_detect_columns Samples.regions_df))
    as (s & top_n & Hs & Htop & Hlen).
  - vm_compute. reflexivity.
  - left. vm_compute. reflexivity.
  - vm_compute in Htop. injection Htop as <-.
    vm_compute in Hs. injection Hs as <-. exact Hlen.
Defined.

(** ** Groups partition the rows *)

Section Partition.

Context {A : Type} (weight : A -> Z).




End Partition.










(** ** The default configuration *)

Lemma get_present config chart_type detected key value :
  chart_conf config chart_type !! key = Some value ->
  Py.get (get_chart_config config chart_type detected) key
  = resolve detected key value.
Proof.
  intros H. unfold Py.get. now rewrite (get_chart_config_present _ _ _ _ _ H).
Qed.


Section ValidColumns.

Variable df : DataFrame.
Hypothesis unique_names : List.NoDup (columns df).







End ValidColumns.

Section DefaultRun.

Variables (df : DataFrame) (c : string).
Hypothesis unique_names : List.NoDup (columns df).
Hypothesis best : best_categorical (auto_detect_columns df) = Some c.
Hypothesis named : c <> "".

Let detected := auto_detect_columns df.









End DefaultRun.



(** X13: with the default configuration, a dataset without a valid
    categorical column, with at least two valid numeric columns, whose first
    date-named column is also its first valid numeric column, ends in an
    exception: the line chart groups that column by itself. *)
Theorem default_config_date_column_clash df d :
  let detected := auto_detect_columns df in
  best_categorical detected = None ->
  head (date detected) = Some d ->
  best_numeric detected = Some d ->
  (2 <= length (numeric detected))%nat ->
  line_chart Samples.default_config df detected = Raised /\
  create_visualizations Samples.default_config df = None.
Proof.
  intros detected Hcat Hdate Hnum Htwo.
  assert (Hnamed : d <> "").
  { intros ->. subst detected. simpl in Hdate.
    destruct (List.filter _ (columns df)) as [| d' rest] eqn:Hfilter;
      [discriminate |].
    injection Hdate as ->.
    assert (Hin : In "" (List.filter
                           (fun col => PyStr.contains "date" (PyStr.lower col)
                                       || PyStr.contains "time" (PyStr.lower col))
                           (columns df)))
      by (rewrite Hfilter; now left).
    apply List.filter_In in Hin as [_ Hin]. discriminate. }
  assert (Htruthy : Py.truthy (CStr d) = true).
  { simpl. apply String.eqb_neq in Hnamed. now rewrite Hnamed. }
  assert (Hline : line_chart Samples.default_config df detected = Raised).
  { unfold line_chart.
    change (enabled Samples.default_config "line_chart") with (CBool true).
    apply Nat.leb_le in Htwo. rewrite Htwo. simpl andb.
    unfold line_x, line_y.
    rewrite (get_present _ _ _ "x_column" (CStr "auto")) by (vm_compute; reflexivity).
    rewrite (get_present _ _ _ "y_columns" (CStr "auto")) by (vm_compute; reflexivity).
    change (resolve detected "x_column" (CStr "auto"))
      with (Py.or (Py.of_option (best_categorical detected))
                  (match date detected with d :: _ => CStr d | [] => CNone end)).
    change (resolve detected "y_columns" (CStr "auto"))
      with (Py.of_option (best_numeric detected)).
    rewrite Hcat, Hnum.
    destruct (date detected) as [| d' rest]; [discriminate |].
    injection Hdate as ->.
    unfold Py.or. simpl Py.of_option. simpl (Py.truthy CNone).
    rewrite !Htruthy. simpl andb. cbv iota.
    unfold line_data, y_list, grouped_sums, y_cells.
    rewrite String.eqb_refl.
    now destruct (getitem df d). }
  split; [exact Hline |].
  unfold create_visualizations. fold detected.
  destruct (built (bar_chart _ _ _)); [| reflexivity].
  destruct (built (pie_chart _ _ _)); [| reflexivity].
  now rewrite Hline.
Qed.

Lemma default_config_date_column_clash_witness :
  create_visualizations Samples.default_config MoreSamples.readings_df = None.
Proof.
  apply (default_config_date_column_clash MoreSamples.readings_df "event_time").
  - reflexivity.
  - reflexivity.
  - reflexivity.
  - simpl. lia.
Defined.

(** ** The table of the line chart *)

Lemma y_cells_length df x ys cols :
  y_cells df x ys = Some cols -> length cols = length ys.
Proof.
  revert cols. induction ys as [| y ys IH]; simpl; intros cols.
  - now intros [= <-].
  - destruct (String.eqb y x); [discriminate |].
    destruct (getitem df y) as [[cells | | |] |]; try discriminate.
    destruct (y_cells df x ys) as [more |]; [| discriminate].
    intros [= <-]. simpl. f_equal. now apply IH.
Qed.

(** X14: every row of a built line chart holds exactly one sum for each y
    column, and its groups are distinct. *)
Theorem line_chart_rows_rectangular config df detected rows x ys :
  line_chart config df detected = Built (LineChart rows x ys) ->
  Forall (fun row => length (snd row) = length ys) rows /\
  List.NoDup (map fst rows).
Proof.
  intros Hbuilt.
  destruct (line_chart_built _ _ _ _ _ _ Hbuilt) as (_ & _ & _ & g & Hg & ->).
  unfold grouped_sums in Hg.
  destruct (getitem df x) as [s |]; [| discriminate].
  destruct (y_cells df x ys) as [cols |] eqn:Hcols; [| discriminate].
  injection Hg as <-. unfold line_rows, head_rows.
  rewrite (LineFacts.dropna_rows_sums
             (fun k cells => group_cells (keys_of s) cells k)).
  rewrite firstn_map. split.
  - apply List.Forall_forall. intros row Hrow.
    apply in_map_iff in Hrow as (k & <- & _). simpl.
    rewrite length_map. now apply y_cells_length in Hcols.
  - rewrite map_map. simpl. rewrite map_id.
    pose proof (GroupFacts.group_keys_NoDup s) as Hnd.
    rewrite <- (firstn_skipn (Z.to_nat 20) (group_keys s)) in Hnd.
    now apply NoDup_app_remove_r in Hnd.
Qed.

Lemma line_chart_rows_rectangular_witness :
  exists rows,
    line_chart Samples.default_config Samples.trend_df
      (auto_detect_columns Samples.trend_df)
    = Built (LineChart rows "step" ["revenue"]) /\
    List.NoDup (map fst rows).
Proof.
  eexists. split; [vm_compute; reflexivity |].
  eapply (line_chart_rows_rectangular Samples.default_config Samples.trend_df
            (auto_detect_columns Samples.trend_df)).
  vm_compute. reflexivity.
Defined.

(** ** The data loader *)

Module DataLoaderFacts.
Import DataLoader.

Lemma endswith_refl s : endswith s s = true.
Proof. destruct s; simpl; now rewrite ?Ascii.eqb_refl, ?String.eqb_refl. Qed.

Lemma endswith_iff suffix s :
  endswith suffix s = true <-> exists pre, s = String.append pre suffix.
Proof.
  induction s as [| c s IH].
  - simpl. rewrite orb_false_r. split.
    + intros H. exists EmptyString. destruct suffix; [reflexivity | discriminate].
    + intros [pre Hpre]. destruct pre; [| discriminate].
      change (EmptyString = suffix) in Hpre. subst suffix. reflexivity.
  - cbn [endswith]. rewrite orb_true_iff, IH, String.eqb_eq. split.
    + intros [<- | [pre ->]]; [now exists EmptyString |].
      now exists (String c pre).
    + intros [[| c' pre] Hpre]; [left; exact Hpre | right].
      injection Hpre as _ ->. now exists pre.
Qed.

(** Two suffixes of one string: one is a suffix of the other. *)
Lemma endswith_chain a b s :
  endswith a s = true -> endswith b s = true ->
  endswith a b = true \/ endswith b a = true.
Proof.
  induction s as [| c s IH].
  - cbn [endswith]. rewrite !orb_false_r, !String.eqb_eq. intros <- <-. now left.
  - cbn [endswith]. rewrite !orb_true_iff, !String.eqb_eq.
    intros [Ha | Ha] [Hb | Hb].
    + subst a b. left. apply endswith_refl.
    + subst a. right. cbn [endswith]. rewrite Hb. apply orb_true_r.
    + subst b. left. cbn [endswith]. rewrite Ha. apply orb_true_r.
    + now apply IH.
Qed.

Lemma endswith_exclusive a b s :
  endswith a b = false -> endswith b a = false ->
  endswith a s = true -> endswith b s = false.
Proof.
  intros Hab Hba Ha. destruct (endswith b s) eqn:Hb; [| reflexivity].
  destruct (endswith_chain a b s Ha Hb); congruence.
Qed.

Lemma lower_char_idempotent c :
  PyStr.lower_char (PyStr.lower_char c) = PyStr.lower_char c.
Proof. destruct c as [[] [] [] [] [] [] [] []]; reflexivity. Qed.

Lemma lower_idempotent s : PyStr.lower (PyStr.lower s) = PyStr.lower s.
Proof.
  induction s as [| c s IH]; simpl; [reflexivity |].
  now rewrite lower_char_idempotent, IH.
Qed.

Lemma route_never_auto source detected_type kwargs sheet_id a b :
  detected_type <> "google_sheets" ->
  route source (CStr detected_type) kwargs <> Some (OpenSheet sheet_id a b).
Proof.
  intros Hne. unfold route, load_sql.
  repeat case_decide; try discriminate; try congruence.
  destruct (Py.truthy _); [discriminate |].
  destruct (Py.truthy _); discriminate.
Qed.

End DataLoaderFacts.

(** X15: [load_data] raises for every source type outside the seven known
    names and, in auto mode, for a source that no pattern matches;
    auto-detection never selects Google Sheets. *)
Theorem load_data_unsupported source kwargs :
  (forall source_type,
     ~ In source_type
         [CStr "auto"; CStr "csv"; CStr "excel"; CStr "json"; CStr "sql";
          CStr "api"; CStr "google_sheets"] ->
     DataLoader.load_data source source_type kwargs = None) /\
  (DataLoader.detect_source_type source = None ->
   DataLoader.load_data source (CStr "auto") kwargs = None) /\
  (forall sheet_id sheet_name credentials_file,
     DataLoader.load_data source (CStr "auto") kwargs
     <> Some (DataLoader.OpenSheet sheet_id sheet_name credentials_file)).
Proof.
  split; [| split].
  - intros source_type Hout. unfold DataLoader.load_data, DataLoader.route.
    simpl in Hout.
    repeat case_decide; try reflexivity; subst; exfalso; apply Hout; tauto.
  - intros Hnone. unfold DataLoader.load_data. simpl. now rewrite Hnone.
  - intros sheet_id a b. unfold DataLoader.load_data. simpl.
    destruct (DataLoader.detect_source_type source) as [detected_type |] eqn:Hd;
      [| discriminate].
    apply DataLoaderFacts.route_never_auto.
    unfold DataLoader.detect_source_type in Hd.
    repeat (destruct (_ : bool) in Hd; [injection Hd as <-; discriminate |]).
    discriminate.
Qed.

Lemma has_extension_endswith suffix source :
  has_extension suffix source <->
  DataLoader.endswith suffix (PyStr.lower source) = true.
Proof. symmetry. apply DataLoaderFacts.endswith_iff. Qed.

(** X16: in auto mode the file extension decides before the scheme of the
    source and without regard to case: a source ending in .csv is read as
    CSV, in .xlsx or .xls as Excel, in .json as JSON, whatever it starts
    with; the reader is given the source as it was written. *)
Theorem load_data_by_extension source kwargs :
  (has_extension ".csv" source ->
   DataLoader.load_data source (CStr "auto") kwargs
   = Some (DataLoader.ReadCsv source)) /\
  (has_extension ".xlsx" source \/ has_extension ".xls" source ->
   DataLoader.load_data source (CStr "auto") kwargs
   = Some (DataLoader.ReadExcel source (Py.get kwargs "sheet_name"))) /\
  (has_extension ".json" source ->
   DataLoader.load_data source (CStr "auto") kwargs
   = Some (DataLoader.ReadJson source)) /\
  DataLoader.detect_source_type (PyStr.lower source)
  = DataLoader.detect_source_type source.
Proof.
  unfold DataLoader.load_data. simpl decide. cbv iota.
  split; [| split; [| split]].
  - intros Hcsv. apply has_extension_endswith in Hcsv.
    unfold DataLoader.detect_source_type. now rewrite Hcsv.
  - intros Hxl.
    assert (Hno : DataLoader.endswith ".csv" (PyStr.lower source) = false).
    { destruct Hxl as [H | H]; apply has_extension_endswith in H;
        eapply DataLoaderFacts.endswith_exclusive; try exact H; reflexivity. }
    assert (Hyes : DataLoader.endswith ".xlsx" (PyStr.lower source)
                   || DataLoader.endswith ".xls" (PyStr.lower source) = true).
    { apply orb_true_iff.
      destruct Hxl as [H | H]; apply has_extension_endswith in H; auto. }
    unfold DataLoader.detect_source_type. now rewrite Hno, Hyes.
  - intros Hjson. apply has_extension_endswith in Hjson.
    unfold DataLoader.detect_source_type.
    rewrite (DataLoaderFacts.endswith_exclusive ".json" ".csv" _ eq_refl eq_refl Hjson).
    rewrite (DataLoaderFacts.endswith_exclusive ".json" ".xlsx" _ eq_refl eq_refl Hjson).
    rewrite (DataLoaderFacts.endswith_exclusive ".json" ".xls" _ eq_refl eq_refl Hjson).
    now rewrite Hjson.
  - unfold DataLoader.detect_source_type.
    now rewrite DataLoaderFacts.lower_idempotent.
Qed.

Lemma load_data_by_extension_witness :
  DataLoader.load_data "HTTPS://example.com/Export.CSV" (CStr "auto") ∅
  = Some (DataLoader.ReadCsv "HTTPS://example.com/Export.CSV").
Proof.
  apply (proj1 (load_data_by_extension "HTTPS://example.com/Export.CSV" ∅)).
  exists "https://example.com/export". reflexivity.
Defined.

Lemma extra_params_lookup data key :
  DataLoader.extra_params data !! key
  = if decide (key = "query") then
      if Py.truthy (Py.get data "query") then Some (Py.get data "query") else None
    else if decide (key = "table") then
      if Py.truthy (Py.get data "table") then Some (Py.get data "table") else None
    else None.
Proof.
  unfold DataLoader.extra_params.
  destruct (Py.truthy (Py.get data "query")), (Py.truthy (Py.get data "table"));
    repeat case_decide; subst;
    rewrite ?lookup_insert_eq, ?lookup_insert_ne, ?lookup_empty by congruence;
    try reflexivity; try congruence.
Qed.

Lemma get_extra_params data :
  let kwargs := DataLoader.extra_params data in
  kwargs !! "query"
  = (if Py.truthy (Py.get data "query") then Some (Py.get data "query") else None) /\
  kwargs !! "table"
  = (if Py.truthy (Py.get data "table") then Some (Py.get data "table") else None) /\
  (forall key, key <> "query" -> key <> "table" -> kwargs !! key = None).
Proof.
  intros kwargs. subst kwargs. unfold DataLoader.extra_params.
  destruct (Py.truthy (Py.get data "query")), (Py.truthy (Py.get data "table"));
    repeat split; try intros key H1 H2;
    rewrite ?lookup_insert_eq, ?lookup_insert_ne, ?lookup_empty by congruence;
    try reflexivity;
    rewrite ?lookup_insert_eq, ?lookup_insert_ne, ?lookup_empty by congruence;
    reflexivity.
Qed.

(** The routing of a report run, with the arguments it can pass. *)
Lemma route_report data file source_type :
  DataLoader.route file source_type (DataLoader.extra_params data)
  = if decide (source_type = CStr "csv") then Some (DataLoader.ReadCsv file)
    else if decide (source_type = CStr "excel") then
      Some (DataLoader.ReadExcel file CNone)
    else if decide (source_type = CStr "json") then Some (DataLoader.ReadJson file)
    else if decide (source_type = CStr "sql") then
      if Py.truthy (Py.get data "query") then
        Some (DataLoader.ReadSqlQuery file (Py.get data "query"))
      else if Py.truthy (Py.get data "table") then
        Some (DataLoader.ReadSqlTable file (Py.get data "table"))
      else None
    else if decide (source_type = CStr "api") then
      Some (DataLoader.RequestApi file (CStr "GET") CNone CNone CNone)
    else if decide (source_type = CStr "google_sheets") then
      Some (DataLoader.OpenSheet file CNone (CStr "credentials.json"))
    else None.
Proof.
  destruct (get_extra_params data) as (Hquery & Htable & Hother).
  unfold DataLoader.route, DataLoader.load_sql.
  unfold Py.get, Py.get_default in *.
  rewrite Hquery, Htable, !Hother by discriminate. simpl default.
  repeat case_decide; try reflexivity.
  destruct (Py.truthy (default CNone (data !! "query"))) eqn:Hq; simpl default.
  - now rewrite Hq.
  - simpl Py.truthy.
    destruct (Py.truthy (default CNone (data !! "table"))) eqn:Ht; simpl default;
      [now rewrite Ht | reflexivity].
Qed.

(** X17: a report run passes only [query] and [table] on to the loader. An
    API source is therefore requested with GET and without headers,
    parameters or a JSON path, an Excel file is read without a sheet name,
    and a SQL source is read by the configured query, else by the configured
    table, and raises when the configuration has neither. *)
Theorem report_source_arguments data data_file :
  let result := DataLoader.report_source data data_file in
  (forall url method headers params json_path,
     result = Some (DataLoader.RequestApi url method headers params json_path) ->
     method = CStr "GET" /\ headers = CNone /\ params = CNone /\
     json_path = CNone) /\
  (forall file sheet_name,
     result = Some (DataLoader.ReadExcel file sheet_name) -> sheet_name = CNone) /\
  (forall sheet_id sheet_name credentials_file,
     result = Some (DataLoader.OpenSheet sheet_id sheet_name credentials_file) ->
     sheet_name = CNone /\ credentials_file = CStr "credentials.json") /\
  (forall connection query,
     result = Some (DataLoader.ReadSqlQuery connection query) ->
     query = Py.get data "query" /\ Py.truthy query = true) /\
  (forall connection table,
     result = Some (DataLoader.ReadSqlTable connection table) ->
     table = Py.get data "table" /\ Py.truthy table = true /\
     Py.truthy (Py.get data "query") = false) /\
  (Py.truthy (Py.get data "query") = false ->
   Py.truthy (Py.get data "table") = false ->
   Py.get_default data "source_type" (CStr "auto") = CStr "sql" ->
   result = None).
Proof.
  intros result. subst result. unfold DataLoader.report_source.
  set (source := match data_file with Some f => Some f | None => _ end).
  destruct source as [file |]; [| repeat split; intros; discriminate].
  pose proof (route_report data file) as Hroute.
  set (kwargs := DataLoader.extra_params data) in *.
  set (source_type := Py.get_default data "source_type" (CStr "auto")).
  assert (Hsql : Py.truthy (Py.get data "query") = false ->
                 Py.truthy (Py.get data "table") = false ->
                 source_type = CStr "sql" ->
                 DataLoader.load_data file source_type kwargs = None).
  { intros Hq Ht ->. unfold DataLoader.load_data.
    case_decide; [discriminate |]. rewrite Hroute.
    repeat case_decide; try discriminate; try congruence;
      now rewrite Hq, Ht. }
  assert (Hload : exists st,
             DataLoader.load_data file source_type kwargs
             = DataLoader.route file st kwargs \/
             DataLoader.load_data file source_type kwargs = None).
  { unfold DataLoader.load_data. case_decide.
    - destruct (DataLoader.detect_source_type file) as [detected_type |].
      + exists (CStr detected_type). now left.
      + exists CNone. now right.
    - exists source_type. now left. }
  destruct Hload as [st [Hload | Hload]].
  - rewrite Hload, Hroute in *.
    repeat split; try exact Hsql; intros; repeat case_decide;
      repeat match goal with
             | H : context [if Py.truthy ?x then _ else _] |- _ =>
                 destruct (Py.truthy x) eqn:?
             end;
      simplify_eq; auto.
  - rewrite Hload in *.
    repeat split; try exact Hsql; intros; discriminate.
Qed.

(** ** JSON documents *)

Module JsonFacts.
Import DataLoader.

Lemma split_dot_nonempty s : split_dot s <> [].
Proof.
  destruct s as [| c s]; simpl; [discriminate |].
  destruct (Ascii.eqb c "."); [discriminate |].
  destruct (split_dot s); discriminate.
Qed.

Lemma split_dot_app p q :
  split_dot (String.append p (String "." q)) = (split_dot p ++ split_dot q)%list.
Proof.
  induction p as [| c p IH].
  - reflexivity.
  - change (String.append (String c p) (String "." q))
      with (String c (String.append p (String "." q))).
    cbn [split_dot]. rewrite IH.
    destruct (Ascii.eqb c "."); [reflexivity |].
    pose proof (split_dot_nonempty p).
    destruct (split_dot p); [contradiction | reflexivity].
Qed.

Lemma navigate_app data keys1 keys2 :
  navigate data (keys1 ++ keys2)
  = navigate data keys1 ≫= (fun inner => navigate inner keys2).
Proof.
  revert data. induction keys1 as [| key keys1 IH]; intros data; simpl.
  - reflexivity.
  - destruct data; try reflexivity.
    destruct (dict_get entries key); [apply IH | reflexivity].
Qed.

End JsonFacts.

(** X18: the structure handling of [load_json] and [load_api]: a list gives
    its records; a dict gives the list under the first of data, results,
    records and items that holds a list, and is normalised as one record when
    none does; a scalar raises. Without a JSON path [load_api] treats the
    response body exactly as [load_json] treats the file content. *)
Theorem json_structure :
  (forall items, DataLoader.load_json (DataLoader.JList items)
                 = Some (DataLoader.Records items)) /\
  (forall entries items,
     DataLoader.load_json (DataLoader.JDict entries)
     = Some (DataLoader.Records items) <->
     exists before key after,
       ["data"; "results"; "records"; "items"] = (before ++ key :: after)%list /\
       DataLoader.dict_get entries key = Some (DataLoader.JList items) /\
       forall k, In k before ->
                 forall l, DataLoader.dict_get entries k <> Some (DataLoader.JList l)) /\
  (forall entries,
     (forall k l, In k ["data"; "results"; "records"; "items"] ->
                  DataLoader.dict_get entries k <> Some (DataLoader.JList l)) ->
     DataLoader.load_json (DataLoader.JDict entries)
     = Some (DataLoader.Normalize entries)) /\
  (forall data,
     DataLoader.load_json data = None <->
     data = DataLoader.JNull \/ (exists b, data = DataLoader.JBool b) \/
     (exists z, data = DataLoader.JNum z) \/ (exists s, data = DataLoader.JStr s)) /\
  (forall body,
     DataLoader.load_api body CNone = DataLoader.load_json body /\
     DataLoader.load_api body (CStr "") = DataLoader.load_json body).
Proof.
  assert (Hfirst : forall entries keys items,
             DataLoader.first_list entries keys = Some items <->
             exists before key after,
               keys = (before ++ key :: after)%list /\
               DataLoader.dict_get entries key = Some (DataLoader.JList items) /\
               forall k, In k before ->
                         forall l, DataLoader.dict_get entries k
                                   <> Some (DataLoader.JList l)).
  { intros entries keys items. induction keys as [| key keys IH]; simpl.
    - split; [discriminate |]. intros (before & key & after & H & _).
      now destruct before.
    - split.
      + intros H.
        destruct (DataLoader.dict_get entries key) as [[| | | | l |] |] eqn:Hkey;
          try (apply IH in H as (before & key' & after & -> & Hk & Hb);
               exists (key :: before), key', after;
               split; [reflexivity |]; split; [exact Hk |];
               intros k [<- | Hin] l'; [congruence | now apply Hb]).
        injection H as ->. exists [], key, keys. repeat split; auto.
      + intros (before & key' & after & Heq & Hk & Hb).
        destruct before as [| b before]; simpl in Heq; injection Heq as -> ->.
        * now rewrite Hk.
        * assert (Hrest : DataLoader.first_list entries (before ++ key' :: after)
                          = Some items).
          { apply IH. exists before, key', after. repeat split; auto.
            intros k Hin. apply Hb. now right. }
          pose proof (Hb b (or_introl eq_refl)) as Hnot.
          destruct (DataLoader.dict_get entries b) as [[| | | | l |] |];
            try exact Hrest.
          now destruct (Hnot l). }
  split; [reflexivity |]. split; [| split; [| split]].
  - intros entries items. rewrite <- Hfirst.
    unfold DataLoader.load_json, DataLoader.frame_of.
    destruct (DataLoader.first_list entries _) as [l |]; split; congruence.
  - intros entries Hnone. unfold DataLoader.load_json, DataLoader.frame_of.
    destruct (DataLoader.first_list entries _) as [l |] eqn:Hl; [| reflexivity].
    apply Hfirst in Hl as (before & key & after & Heq & Hk & _).
    exfalso. apply (Hnone key l); [| exact Hk].
    rewrite Heq. apply in_or_app. right. now left.
  - intros data. unfold DataLoader.load_json, DataLoader.frame_of.
    destruct data as [| b | z | s | items | entries].
    + split; [intros _; now left | reflexivity].
    + split; [intros _; right; left; eauto | reflexivity].
    + split; [intros _; right; right; left; eauto | reflexivity].
    + split; [intros _; right; right; right; eauto | reflexivity].
    + split; [discriminate |].
      intros [H | [[? H] | [[? H] | [? H]]]]; discriminate H.
    + split.
      * destruct (DataLoader.first_list entries _); discriminate.
      * intros [H | [[? H] | [[? H] | [? H]]]]; discriminate H.
  - intros body. split; reflexivity.
Qed.

(** X19: a dotted JSON path is followed one key at a time: the path
    [p.q] leads where [p] and then [q] lead, and a key that is missing on
    the way, or a value on the way that is not a dict, raises. *)
Theorem json_path_composes body p q :
  DataLoader.navigate body (DataLoader.split_dot (String.append p (String "." q)))
  = DataLoader.navigate body (DataLoader.split_dot p)
      ≫= (fun inner => DataLoader.navigate inner (DataLoader.split_dot q)) /\
  (q <> "" ->
   DataLoader.load_api body (CStr (String.append p (String "." q)))
   = DataLoader.navigate body (DataLoader.split_dot p)
       ≫= (fun inner => DataLoader.load_api inner (CStr q))) /\
  (DataLoader.navigate body (DataLoader.split_dot p) = None ->
   DataLoader.load_api body (CStr (String.append p (String "." q))) = None).
Proof.
  assert (Hnav := JsonFacts.navigate_app body (DataLoader.split_dot p)
                    (DataLoader.split_dot q)).
  rewrite <- JsonFacts.split_dot_app in Hnav.
  assert (Htruthy : Py.truthy (CStr (String.append p (String "." q))) = true)
    by now destruct p.
  split; [exact Hnav |]. split.
  - intros Hq. unfold DataLoader.load_api at 1. rewrite Htruthy, Hnav.
    destruct (DataLoader.navigate body (DataLoader.split_dot p)) as [inner |];
      simpl; [| reflexivity].
    unfold DataLoader.load_api. destruct q as [| c q]; [contradiction |].
    reflexivity.
  - intros Hnone. unfold DataLoader.load_api. rewrite Htruthy, Hnav, Hnone.
    reflexivity.
Qed.

(** ** Summary statistics *)

Module SummaryFacts.
Import Summary.

Lemma dict_set_fresh {V} (d : list (string * V)) key value :
  ~ In key (map fst d) -> dict_set d key value = (d ++ [(key, value)])%list.
Proof.
  induction d as [| [k v] d IH]; simpl; [reflexivity |].
  intros Hfresh. destruct (String.eqb_spec k key) as [-> | _].
  - exfalso. apply Hfresh. now left.
  - rewrite IH; [reflexivity |]. intros Hin. apply Hfresh. now right.
Qed.

(** With distinct names the loop adds one entry per numeric column, in
    order. *)
Lemma fold_add_column df (cols : list (string * series))
    (d : list (string * column_stats)) :
  List.NoDup (columns df) ->
  (forall c, In c cols -> In c (df_columns df)) ->
  List.NoDup (map fst d ++ map fst cols) ->
  fold_left (add_column df)
    (map fst (List.filter (fun c => is_number (snd c)) cols)) (Some d)
  = Some (d ++ omap (fun c => match snd c with
                              | Numeric cells => Some (fst c, stats cells)
                              | _ => None
                              end) cols)%list.
Proof.
  intros Hnd. revert d. induction cols as [| [name s] cols IH]; intros d Hin Hfresh.
  - simpl. now rewrite app_nil_r.
  - assert (Hrest : forall c, In c cols -> In c (df_columns df))
      by (intros c Hc; apply Hin; now right).
    destruct s as [cells | cells | cells | cells]; simpl.
    2-4: apply IH; [exact Hrest |];
         simpl in Hfresh; now apply NoDup_remove_1 in Hfresh.
    unfold getitem.
    rewrite (PandasFacts.In_getitem_columns _ _ _ Hnd (Hin _ (or_introl eq_refl))).
    simpl in Hfresh. pose proof (NoDup_remove_2 _ _ _ Hfresh) as Hname.
    rewrite dict_set_fresh
      by (intros Hd; apply Hname; apply in_or_app; now left).
    rewrite IH; [now rewrite <- app_assoc | exact Hrest |].
    rewrite map_app. simpl. rewrite <- app_assoc. exact Hfresh.
Qed.




End SummaryFacts.

(** X20: with unique column names the summary holds the row count, the
    column names and one entry for every numeric column in native order,
    whether or not the column has enough values for the profile: the numeric
    list of the profile is a subsequence of the summarised columns. *)
Theorem summary_covers_numeric_columns df :
  List.NoDup (columns df) ->
  exists s,
    Summary.get_summary_stats df = Some s /\
    Summary.total_rows s = df_len df /\
    Summary.summary_columns s = columns df /\
    map fst (Summary.numeric_summary s) = select_dtypes is_number df /\
    numeric (auto_detect_columns df) `sublist_of` map fst (Summary.numeric_summary s) /\
    (forall col st,
       In (col, st) (Summary.numeric_summary s) <->
       exists cells, In (col, Numeric cells) (df_columns df) /\
                     st = Summary.stats cells).
Proof.
  intros Hnd. unfold Summary.get_summary_stats, select_dtypes.
  rewrite (SummaryFacts.fold_add_column df (df_columns df) [] Hnd)
    by (auto; exact Hnd).
  simpl app. eexists. split; [reflexivity |]. simpl.
  split; [reflexivity |]. split; [reflexivity |].
  assert (Hkeys : forall cols : list (string * series),
             map fst (omap (fun c => match snd c with
                                     | Numeric cells => Some (fst c, Summary.stats cells)
                                     | _ => None
                                     end) cols)
             = map fst (List.filter (fun c => is_number (snd c)) cols)).
  { induction cols as [| [name [cells | cells | cells | cells]] cols IH];
      [reflexivity | simpl; f_equal; exact IH | exact IH ..]. }
  split; [apply Hkeys |]. split.
  - rewrite Hkeys. apply filter_sublist.
  - intros col st. rewrite <- list_elem_of_In, list_elem_of_omap. split.
    + intros ([name s] & Hin & Hst). simpl in Hst.
      destruct s as [cells | | |]; try discriminate.
      injection Hst as -> <-. exists cells. split; [| reflexivity].
      now apply list_elem_of_In.
    + intros (cells & Hin & ->). exists (col, Numeric cells).
      split; [now apply list_elem_of_In | reflexivity].
Qed.

Lemma summary_covers_numeric_columns_witness :
  exists s,
    Summary.get_summary_stats Samples.sparse_df = Some s /\
    map fst (Summary.numeric_summary s) = ["revenue"; "update_date"].
Proof.
  destruct (summary_covers_numeric_columns Samples.sparse_df)
    as (s & Hs & _ & _ & Hkeys & _).
  - repeat (constructor; [simpl; intuition discriminate |]). constructor.
  - exists s. split; [exact Hs | exact Hkeys].
Defined.


(** ** Sending the report *)

